(** * Time-series analysis page ([tm.py])

    The program is a single Streamlit script.  It reads a table with a
    [Month] index and a [Passengers] column, draws the series, and runs a
    block of diagnostics inside one [try]/[except]: additive decomposition,
    three component heuristics, the ADF stationarity verdict, the
    correlogram, a rolling-mean heuristic and the volatility of the
    percentage changes.

    The numerical routines the script calls ([seasonal_decompose],
    [adfuller], [acf], [pacf], [Series.mean], [Series.std], the rolling
    mean and the float formatting) belong to statsmodels, pandas and
    Python; they are not part of the script and enter this development as
    the fields of a [Library].  What the script itself does with their
    results -- the order of the calls, the arguments it passes, the
    comparisons it makes, the messages it writes, the column it assigns and
    the single exception handler -- is modelled definition by definition. *)

From Stdlib Require Import ZArith List Bool Lia SpecFloat.
From stdpp Require Import gmap strings list pretty.

Local Open Scope Z_scope.
Local Open Scope string_scope.

(** ** Binary64 numbers

    Python floats and the [float64] cells of a pandas column are IEEE 754
    binary64 values.  They are represented by [spec_float] with the
    binary64 parameters; a missing cell is the NaN. *)

Module F64.

Definition prec : Z := 53.
Definition emax : Z := 1024.

Definition float : Type := spec_float.

Definition nan : float := S754_nan.
Definition infinity : float := S754_infinity false.
Definition of_Z (z : Z) : float := binary_normalize prec emax z 0 false.

Definition zero : float := of_Z 0.
Definition one : float := of_Z 1.
Definition ten : float := of_Z 10.
(** The literal [0.05]: the binary64 number nearest to 1/20. *)
Definition five_percent : float := S754_finite false 7205759403792794 (-57).

Definition div : float -> float -> float := SFdiv prec emax.
Definition sub : float -> float -> float := SFsub prec emax.
Definition add : float -> float -> float := SFadd prec emax.
Definition mul : float -> float -> float := SFmul prec emax.
Definition sqrt : float -> float := SFsqrt prec emax.

(** Python's comparisons on floats: every comparison with a NaN is
    false, except [!=], which is true. *)
Definition ltb : float -> float -> bool := SFltb.
Definition gtb (x y : float) : bool := SFltb y x.
Definition eqb : float -> float -> bool := SFeqb.
Definition neqb (x y : float) : bool := negb (SFeqb x y).

Definition isnan (x : float) : bool :=
  match x with S754_nan => true | _ => false end.
Definition isinf (x : float) : bool :=
  match x with S754_infinity _ => true | _ => false end.
Definition iszero (x : float) : bool :=
  match x with S754_zero _ => true | _ => false end.
(** A number other than zero: finite and non-zero, or infinite. *)
Definition nonzero (x : float) : bool :=
  match x with S754_finite _ _ _ | S754_infinity _ => true | _ => false end.

End F64.

Abbreviation float := F64.float.

(** ** The pandas objects the script handles *)

(** Row labels: the parsed [Month] timestamps. *)
Definition Timestamp : Type := Z.

(** A [Series] is a sequence of labelled cells, in row order. *)
Definition Series : Type := list (Timestamp * float).

Definition labels (s : Series) : list Timestamp := map fst s.
Definition values (s : Series) : list float := map snd s.

(** [Series.dropna()]: the rows whose cell is not NaN, with their labels. *)
Definition dropna (s : Series) : Series :=
  List.filter (fun r => negb (F64.isnan (snd r))) s.

(** A [DataFrame]: the index and the named float columns. *)
Record DataFrame : Type := mkDataFrame {
  index : list Timestamp;
  columns : gmap string (list float)
}.

(** [len(df)]: the number of rows, missing cells included. *)
Definition len (df : DataFrame) : Z := Z.of_nat (length (index df)).

(** [df[c]] for a column that exists. *)
Definition getitem (df : DataFrame) (c : string) : option Series :=
  match columns df !! c with
  | Some v => Some (combine (index df) v)
  | None => None
  end.

(** [df.head()]: the first five rows. *)
Definition head (df : DataFrame) : DataFrame :=
  {| index := firstn 5 (index df);
     columns := fmap (firstn 5) (columns df) |}.

(** Exceptions are identified with their text, which is all the handler of
    the script uses ([f"{e}"]). *)
Definition Exn : Type := string.

Inductive Result (A : Type) : Type :=
| Ok (a : A)
| Raise (e : Exn).
Arguments Ok {A} a.
Arguments Raise {A} e.

(** [Series.shift(1)]: every cell moves one row down, the first cell
    becomes NaN. *)
Definition shift (v : list float) : list float :=
  firstn (length v) (F64.nan :: v).

(** Forward filling of missing cells ([fill_method='pad']). *)
Fixpoint ffill_from (last : float) (v : list float) : list float :=
  match v with
  | [] => []
  | x :: r =>
      let y := if F64.isnan x then last else x in
      y :: ffill_from y r
  end.
Definition ffill (v : list float) : list float := ffill_from F64.nan v.

(** The fractional change from the previous row, [data / data.shift(1) - 1],
    cell by cell in binary64. *)
Definition change (x prev : float) : float := F64.sub (F64.div x prev) F64.one.

Fixpoint zip_change (v w : list float) : list float :=
  match v, w with
  | x :: v', p :: w' => change x p :: zip_change v' w'
  | _, _ => []
  end.

(** [Series.pct_change()].  Whether missing cells are padded first is the
    default of the installed pandas ([pads]). *)
Definition pct_change (pads : bool) (s : Series) : Series :=
  let data := if pads then ffill (values s) else values s in
  combine (labels s) (zip_change data (shift data)).

(** The cell a label selects in a series with distinct labels. *)
Fixpoint loc (s : Series) (l : Timestamp) : float :=
  match s with
  | [] => F64.nan
  | (l', x) :: r => if Z.eqb l' l then x else loc r l
  end.

Definition duplicate_labels : Exn :=
  "cannot reindex on an axis with duplicate labels".

(** [Series.reindex(idx)]: one cell per label of [idx], NaN where the
    series has no such label; refused when the labels of the series
    repeat. *)
Definition reindex (s : Series) (idx : list Timestamp) : Result (list float) :=
  if decide (NoDup (labels s)) then Ok (map (loc s) idx)
  else Raise duplicate_labels.

(** [df[c] = s]: the column is the series aligned on the index of the
    table.  The table object itself is updated; the other columns and the
    index are not touched. *)
Definition setitem (df : DataFrame) (c : string) (s : Series) : Result DataFrame :=
  if decide (labels s = index df) then
    Ok {| index := index df; columns := <[c := values s]> (columns df) |}
  else
    match reindex s (index df) with
    | Ok v => Ok {| index := index df; columns := <[c := v]> (columns df) |}
    | Raise e => Raise e
    end.

(** ** The numerical library

    Results of the routines the script imports.  A routine that can fail
    returns a [Result]. *)

(** What [seasonal_decompose(..., model='additive')] returns. *)
Record DecomposeResult : Type := mkDecomposeResult {
  observed : Series;
  trend : Series;
  seasonal : Series;
  resid : Series
}.

(** The tuple [adfuller] returns; the script reads component 1. *)
Record ADFResult : Type := mkADFResult {
  adf : float;
  pvalue : float;
  usedlag : Z;
  nobs : Z;
  critical_values : list (string * float);
  icbest : float
}.

Class Library : Type := mkLibrary {
  (** [statsmodels.tsa.seasonal.seasonal_decompose(x, model='additive')];
      the period is the one statsmodels infers from the index. *)
  seasonal_decompose : Series -> Result DecomposeResult;
  (** [statsmodels.tsa.stattools.adfuller(x)] *)
  adfuller : Series -> Result ADFResult;
  (** [statsmodels.tsa.stattools.acf(x, nlags=k)] *)
  acf : Series -> Z -> Result (list float);
  (** [statsmodels.tsa.stattools.pacf(x, nlags=k)] *)
  pacf : Series -> Z -> Result (list float);
  (** [Series.mean()] and [Series.std()] *)
  mean : Series -> float;
  std : Series -> float;
  (** [Series.rolling(window=w).mean()] *)
  rolling_mean : Z -> Series -> Series;
  (** whether [Series.pct_change()] pads missing cells by default *)
  pct_change_pads : bool;
  (** [f"{x:.2f}"] *)
  format_2f : float -> string
}.

(** ** What the page shows *)

Inductive Figure : Type :=
| LinePlot (x : list Timestamp) (y : list float)
| DecompositionPlot (d : DecomposeResult)
| Correlogram (acf_values pacf_values : list float).

Inductive Event : Type :=
| Title (s : string)
| FileUploader (s : string)
| Button (s : string)
| Subheader (s : string)
| Write (s : string)
| WriteTable (df : DataFrame)
| Pyplot (f : Figure)
| Error (s : string)
| Info (s : string).

(** ** Commands

    A command runs on the table bound to [df], may update it, appends to
    the page, and returns a value or raises. *)

Record Run (A : Type) : Type := mkRun {
  outcome : Result A;
  frame : DataFrame;
  page : list Event
}.
Arguments mkRun {A} outcome frame page.
Arguments outcome {A} r.
Arguments frame {A} r.
Arguments page {A} r.

Definition M (A : Type) : Type := DataFrame -> Run A.

Definition ret {A} (a : A) : M A := fun df => mkRun (Ok a) df [].

Definition bind {A B} (m : M A) (k : A -> M B) : M B :=
  fun df =>
    let r := m df in
    match outcome r with
    | Ok a =>
        let r' := k a (frame r) in
        mkRun (outcome r') (frame r') (page r ++ page r')
    | Raise e => mkRun (Raise e) (frame r) (page r)
    end.

Declare Scope cmd_scope.
Delimit Scope cmd_scope with cmd.
Notation "x <- c1 ;; c2" := (bind c1 (fun x => c2))
  (at level 100, c1 at next level, right associativity) : cmd_scope.
Notation "c1 ;; c2" := (bind c1 (fun _ => c2))
  (at level 100, right associativity) : cmd_scope.

(** [st.<call>(...)] *)
Definition emit (e : Event) : M unit := fun df => mkRun (Ok tt) df [e].

(** A library call. *)
Definition call {A} (r : Result A) : M A := fun df => mkRun r df [].

(** [df[c]]; a missing column is a [KeyError], whose text is the quoted
    name. *)
Definition col (c : string) : M Series :=
  fun df =>
    match getitem df c with
    | Some s => mkRun (Ok s) df []
    | None => mkRun (Raise ("'" +:+ c +:+ "'")) df []
    end.

(** [len(df)] *)
Definition rows : M Z := fun df => mkRun (Ok (len df)) df [].

(** [df] *)
Definition current : M DataFrame := fun df => mkRun (Ok df) df [].

(** [df[c] = s] *)
Definition setcol (c : string) (s : Series) : M unit :=
  fun df =>
    match setitem df c s with
    | Ok df' => mkRun (Ok tt) df' []
    | Raise e => mkRun (Raise e) df []
    end.

(** [try: body except Exception as e: handler e] *)
Definition try_except (body : M unit) (handler : Exn -> M unit) : M unit :=
  fun df =>
    let r := body df in
    match outcome r with
    | Ok a => r
    | Raise e =>
        let r' := handler e (frame r) in
        mkRun (outcome r') (frame r') (page r ++ page r')
    end.

(** ** The script *)

Section Script.

Context {lib : Library}.

Local Open Scope cmd_scope.

(** Line 91: [lags = min(len(df) - 1, 40)]. *)
Definition lags (n : Z) : Z := Z.min (n - 1) 40.

(** Lines 44-60: the decomposition and its figure. *)
Definition decomposition_step : M DecomposeResult :=
  passengers <- col "Passengers" ;;
  decomposition <- call (seasonal_decompose passengers) ;;
  emit (Pyplot (DecompositionPlot decomposition)) ;;
  ret decomposition.

(** Lines 65-69. *)
Definition trend_step (decomposition : DecomposeResult) : M unit :=
  if F64.neqb (mean (dropna (trend decomposition))) F64.zero
  then emit (Write "- The time series has a trend component.")
  else emit (Write "- No significant trend detected.").

(** Lines 71-75. *)
Definition seasonality_step (decomposition : DecomposeResult) : M unit :=
  if F64.neqb (mean (dropna (seasonal decomposition))) F64.zero
  then emit (Write "- The time series has a seasonal component.")
  else emit (Write "- No significant seasonality detected.").

(** Lines 77-81. *)
Definition irregularity_step (decomposition : DecomposeResult) : M unit :=
  if F64.gtb (std (dropna (resid decomposition))) F64.ten
  then emit (Write "- The time series has irregular components.")
  else emit (Write "- No significant irregularity detected.").

(** Lines 83-88. *)
Definition stationarity_step : M unit :=
  passengers <- col "Passengers" ;;
  result <- call (adfuller (dropna passengers)) ;;
  if F64.ltb (pvalue result) F64.five_percent
  then emit (Write "- The time series is stationary.")
  else emit (Write "- The time series is not stationary.").

(** Lines 90-101. *)
Definition correlation_step : M unit :=
  n <- rows ;;
  passengers <- col "Passengers" ;;
  acf_values <- call (acf (dropna passengers) (lags n)) ;;
  passengers <- col "Passengers" ;;
  pacf_values <- call (pacf (dropna passengers) (lags n)) ;;
  emit (Pyplot (Correlogram acf_values pacf_values)).

(** Lines 103-108. *)
Definition mean_reversion_step : M unit :=
  passengers <- col "Passengers" ;;
  let mean_reversion := dropna (rolling_mean 12 passengers) in
  if F64.gtb (std mean_reversion) F64.ten
  then emit (Write "- The time series exhibits mean reversion.")
  else emit (Write "- No significant mean reversion detected.").

(** Lines 110-113. *)
Definition volatility_step : M unit :=
  passengers <- col "Passengers" ;;
  setcol "Returns" (dropna (pct_change pct_change_pads passengers)) ;;
  returns <- col "Returns" ;;
  let volatility := std returns in
  emit (Write ("- The volatility of the time series is "
               +:+ format_2f volatility +:+ ".")).

(** Lines 62-81: the three verdicts on the components. *)
Definition component_analysis (decomposition : DecomposeResult) : M unit :=
  emit (Write "Analysis of the time series:") ;;
  trend_step decomposition ;;
  seasonality_step decomposition ;;
  irregularity_step decomposition.

(** Lines 83-113: the diagnostics computed from the series itself. *)
Definition series_analysis : M unit :=
  stationarity_step ;;
  correlation_step ;;
  mean_reversion_step ;;
  volatility_step.

(** Lines 44-113: the body of the [try]. *)
Definition diagnostics : M unit :=
  decomposition <- decomposition_step ;;
  component_analysis decomposition ;;
  series_analysis.

(** Lines 115-116: the handler. *)
Definition report (e : Exn) : M unit :=
  emit (Error ("Error during analysis: " +:+ e)).

(** Lines 41-116. *)
Definition analysis : M unit :=
  emit (Subheader "Time Series Decomposition") ;;
  try_except diagnostics report.

(** Lines 27-39: the table preview and the plot of the series. *)
Definition preview : M unit :=
  emit (Write "Data successfully loaded:") ;;
  df <- current ;;
  emit (WriteTable (head df)) ;;
  emit (Subheader "Time Series Plot") ;;
  passengers <- col "Passengers" ;;
  emit (Pyplot (LinePlot (index df) (values passengers))).

(** Lines 118-148: the button and the static help page, whose long text
    is abridged to its first heading. *)
Definition about (pressed : bool) : M unit :=
  emit (Button "Want to know more about Time Series") ;;
  if pressed then
    emit (Subheader "About Time Series Analysis") ;;
    emit (Write "**What is Time Series Analysis?**")
  else ret tt.

(** Lines 19-148, once the file has been read into [df]. *)
Definition loaded (pressed : bool) : M unit :=
  (fun df =>
     match columns df !! "Passengers" with
     | None => emit (Error "CSV file must contain a 'Passengers' column.") df
     | Some _ => (preview ;; analysis) df
     end) ;;
  about pressed.

(** The whole script: [uploaded_file] is the parsed upload, if any. *)
Definition app (uploaded_file : option DataFrame) (pressed : bool)
  : list Event * option (Run unit) :=
  let top := [Title "Time Series Analysis App";
              FileUploader "Upload your CSV file"] in
  match uploaded_file with
  | Some df => (top, Some (loaded pressed df))
  | None => ((top ++ [Info "Please upload a CSV file to start."])%list, None)
  end.

End Script.

(** ** Notions used in the statements *)

Section Notions.

Context {lib : Library}.

(** The lines of the page whose wording depends on a statistic. *)
Definition trend_line (d : DecomposeResult) : Event :=
  Write (if F64.neqb (mean (dropna (trend d))) F64.zero
         then "- The time series has a trend component."
         else "- No significant trend detected.").

Definition seasonality_line (d : DecomposeResult) : Event :=
  Write (if F64.neqb (mean (dropna (seasonal d))) F64.zero
         then "- The time series has a seasonal component."
         else "- No significant seasonality detected.").

Definition irregularity_line (d : DecomposeResult) : Event :=
  Write (if F64.gtb (std (dropna (resid d))) F64.ten
         then "- The time series has irregular components."
         else "- No significant irregularity detected.").

Definition volatility_line (returns : Series) : Event :=
  Write ("- The volatility of the time series is "
         +:+ format_2f (std returns) +:+ ".").


End Notions.

(** A command that leaves the table as it found it. *)
Definition reads_only {A} (m : M A) : Prop := forall df, frame (m df) = df.

(** Every column has one cell per row. *)
Definition well_formed (df : DataFrame) : Prop :=
  map_Forall (fun _ v => length v = length (index df)) (columns df).

#[export] Instance well_formed_dec df : Decision (well_formed df).
Proof. unfold well_formed. apply _. Defined.

(** The number of missing cells of a series. *)
Definition missing (s : Series) : nat :=
  length (List.filter (fun r => F64.isnan (snd r)) s).

(** ** Further notions *)

Section MoreNotions.

Context {lib : Library}.

Definition stationarity_line (result : ADFResult) : Event :=
  Write (if F64.ltb (pvalue result) F64.five_percent
         then "- The time series is stationary."
         else "- The time series is not stationary.").

Definition mean_reversion_line (passengers : Series) : Event :=
  Write (if F64.gtb (std (dropna (rolling_mean 12 passengers))) F64.ten
         then "- The time series exhibits mean reversion."
         else "- No significant mean reversion detected.").

End MoreNotions.

(** Two tables with the same rows and the same [Passengers] column; their
    other columns are free. *)
Definition same_series (df1 df2 : DataFrame) : Prop :=
  index df1 = index df2 /\
  columns df1 !! "Passengers" = columns df2 !! "Passengers".

(** Two runs that return and show the same, on tables that still have the
    same series. *)
Definition agree {A} (r1 r2 : Run A) : Prop :=
  outcome r1 = outcome r2 /\ page r1 = page r2 /\
  same_series (frame r1) (frame r2).

(** A command that looks at nothing but the rows and the [Passengers]
    column. *)
Definition insensitive {A} (m : M A) : Prop :=
  forall df1 df2, same_series df1 df2 -> agree (m df1) (m df2).

(** ** A small library and tables to run the script on

    The statistics below are simple stand-ins for the routines of
    statsmodels and pandas; they keep the conditions under which those
    routines refuse their input.  They serve to run the script on concrete
    tables; the theorems further down hold for every library. *)

Module Sample.

Definition period : Z := 12.

Definition isfinite (x : float) : bool :=
  match x with S754_zero _ | S754_finite _ _ _ => true | _ => false end.

Definition total (v : list float) : float := fold_left F64.add v F64.zero.

Definition count (v : list float) : float := F64.of_Z (Z.of_nat (length v)).

(** Mean and sample standard deviation of the cells that are present. *)
Definition mean (s : Series) : float :=
  let v := values (dropna s) in F64.div (total v) (count v).

Definition std (s : Series) : float :=
  let v := values (dropna s) in
  let m := mean s in
  let squares := map (fun x => F64.mul (F64.sub x m) (F64.sub x m)) v in
  if (length v <=? 1)%nat then F64.nan
  else F64.sqrt (F64.div (total squares) (F64.of_Z (Z.of_nat (length v) - 1))).

Definition window_mean (w : nat) (v : list float) (i : nat) : float :=
  let cells := firstn w (skipn (S i - w) v) in
  if (S i <? w)%nat || existsb F64.isnan cells then F64.nan
  else F64.div (total cells) (count cells).

Definition rolling_mean (w : Z) (s : Series) : Series :=
  combine (labels s)
          (map (window_mean (Z.to_nat w) (values s)) (seq 0 (length s))).

(** The trivial additive decomposition: the trend is the series itself
    and nothing is left for the other components. *)
Definition trivial (x : Series) : DecomposeResult :=
  let nothing := map (fun r => (fst r, F64.zero)) x in
  {| observed := x; trend := x; seasonal := nothing; resid := nothing |}.

Definition seasonal_decompose (x : Series) : Result DecomposeResult :=
  if negb (forallb isfinite (values x)) then
    Raise "This function does not handle missing values"
  else if (Z.of_nat (length x) <? 2 * period)%Z then
    Raise "x must have 2 complete cycles"
  else
    Ok (trivial x).

Definition unit_root (x : Series) : ADFResult :=
  {| adf := F64.zero; pvalue := F64.one; usedlag := 0;
     nobs := Z.of_nat (length x) - 1;
     critical_values := []; icbest := F64.zero |}.

Definition adfuller (x : Series) : Result ADFResult :=
  if (length x <=? 3)%nat then Raise "sample size is too short"
  else Ok (unit_root x).

Definition white (nlags : Z) : list float :=
  F64.one :: repeat F64.zero (Z.to_nat nlags).

Definition acf (x : Series) (nlags : Z) : Result (list float) :=
  Ok (firstn (length x) (white nlags)).

Definition pacf (x : Series) (nlags : Z) : Result (list float) :=
  if (Z.of_nat (length x) / 2 <=? nlags)%Z then
    Raise "Can only compute partial correlations for lags up to 50% of the sample size."
  else Ok (white nlags).

(** [f"{x:.2f}"]: the nearest number of hundredths, ties to even. *)
Definition hundredths (m : positive) (e : Z) : Z :=
  if (0 <=? e)%Z then Z.pos m * 2 ^ e * 100
  else
    let den := 2 ^ (- e) in
    let q := (Z.pos m * 100) / den in
    let r := (Z.pos m * 100) mod den in
    if ((den <? 2 * r) || ((den =? 2 * r) && Z.odd q))%Z then q + 1 else q.

Definition digit (d : Z) : string := pretty d.

Definition format_2f (x : float) : string :=
  match x with
  | S754_nan => "nan"
  | S754_infinity s => if s then "-inf" else "inf"
  | S754_zero s => if s then "-0.00" else "0.00"
  | S754_finite s m e =>
      let n := hundredths m e in
      (if s then "-" else "") +:+ pretty (n / 100) +:+ "."
      +:+ digit (n mod 100 / 10) +:+ digit (n mod 10)
  end.

Definition library : Library :=
  mkLibrary seasonal_decompose adfuller acf pacf mean std rolling_mean
            false format_2f.

(** A table of [n] months whose [Passengers] cells are given by [f],
    and its [Passengers] column as a series. *)
Definition table (n : nat) (f : nat -> float) : DataFrame :=
  {| index := map Z.of_nat (seq 0 n);
     columns := {[ "Passengers" := map f (seq 0 n) ]} |}.

Definition cells (n : nat) (f : nat -> float) : Series :=
  combine (map Z.of_nat (seq 0 n)) (map f (seq 0 n)).

(** Seven years of a rising series. *)
Definition rising_cell (i : nat) : float := F64.of_Z (100 + Z.of_nat i).
Definition rising : DataFrame := table 84 rising_cell.

(** The same with one month at zero. *)
Definition with_zero_cell (i : nat) : float :=
  if (i =? 10)%nat then F64.zero else rising_cell i.
Definition with_zero : DataFrame := table 84 with_zero_cell.

(** Less than two years. *)
Definition short : DataFrame := table 20 rising_cell.


(** An ADF test that, like the one of statsmodels, refuses a series whose
    cells are all equal. *)
Definition constant (x : Series) : bool :=
  match values x with
  | [] => true
  | c :: v => forallb (F64.eqb c) v
  end.

Definition adfuller_strict (x : Series) : Result ADFResult :=
  if constant x then Raise "Invalid input, x is constant"
  else adfuller x.

Definition strict : Library :=
  mkLibrary seasonal_decompose adfuller_strict acf pacf mean std rolling_mean
            false format_2f.

(** Seven years at one level. *)
Definition flat_cell (i : nat) : float := F64.of_Z 100.
Definition flat : DataFrame := table 84 flat_cell.

(** Thirty months of the rising series. *)
Definition medium : DataFrame := table 30 rising_cell.

(** The rising series in a table that has a second column. *)
Definition annotated : DataFrame :=
  {| index := index rising;
     columns := <["Notes" := map (fun _ => F64.nan) (seq 0 84)]>
                  (columns rising) |}.

End Sample.

(** ** How commands compose *)

Arguments bind {A B} m k df : simpl never.
Arguments try_except body handler df : simpl never.

Section Commands.

Context {A B : Type}.
Implicit Types (m : M A) (k : A -> M B) (df : DataFrame) (e : Event).

Lemma bind_ok m k df a :
  outcome (m df) = Ok a ->
  bind m k df =
    mkRun (outcome (k a (frame (m df)))) (frame (k a (frame (m df))))
          (page (m df) ++ page (k a (frame (m df)))).
Proof. intros Hm. unfold bind. now rewrite Hm. Qed.

Lemma bind_raise m k df x :
  outcome (m df) = Raise x ->
  bind m k df = mkRun (Raise x) (frame (m df)) (page (m df)).
Proof. intros Hm. unfold bind. now rewrite Hm. Qed.

(** What a sequence shows: what its first part shows, then, if that part
    returns, what the rest shows. *)
Lemma elem_of_page_bind m k df e :
  e ∈ page (bind m k df) <->
  e ∈ page (m df) \/
  exists a, outcome (m df) = Ok a /\ e ∈ page (k a (frame (m df))).
Proof.
  unfold bind. destruct (outcome (m df)) as [a|x] eqn:Hm; simpl.
  - rewrite elem_of_app. split.
    + intros [H|H]; [now left | right; eauto].
    + intros [H|(a' & Ha & H)]; [now left | right; congruence].
  - split; [now left | intros [H|(a' & Ha & H)]; [done | discriminate]].
Qed.

Lemma outcome_bind_ok m k df b :
  outcome (bind m k df) = Ok b <->
  exists a, outcome (m df) = Ok a /\ outcome (k a (frame (m df))) = Ok b.
Proof.
  unfold bind. destruct (outcome (m df)) as [a|x] eqn:Hm; simpl.
  - split; [eauto | intros (a' & Ha & H); congruence].
  - split; [discriminate | intros (a' & Ha & H); discriminate].
Qed.

End Commands.

Lemma elem_of_page_try (body : M unit) (handler : Exn -> M unit) df e :
  e ∈ page (try_except body handler df) <->
  e ∈ page (body df) \/
  exists x, outcome (body df) = Raise x /\
            e ∈ page (handler x (frame (body df))).
Proof.
  unfold try_except. destruct (outcome (body df)) as [a|x] eqn:Hb; simpl.
  - split; [now left | intros [H|(x & Hx & H)]; [done | discriminate]].
  - rewrite elem_of_app. split.
    + intros [H|H]; [now left | right; eauto].
    + intros [H|(x' & Hx & H)]; [now left | right; congruence].
Qed.

Create HintDb frame discriminated.

Lemma reads_only_ret {A} (a : A) : reads_only (ret a).
Proof. now intros df. Qed.

Lemma reads_only_emit e : reads_only (emit e).
Proof. now intros df. Qed.

Lemma reads_only_call {A} (r : Result A) : reads_only (call r).
Proof. now intros df. Qed.

Lemma reads_only_col c : reads_only (col c).
Proof. intros df. unfold col. now destruct (getitem df c). Qed.

Lemma reads_only_rows : reads_only rows.
Proof. now intros df. Qed.

Lemma reads_only_bind {A B} (m : M A) (k : A -> M B) :
  reads_only m -> (forall a, reads_only (k a)) -> reads_only (bind m k).
Proof.
  intros Hm Hk df. unfold bind.
  destruct (outcome (m df)) as [a|x]; simpl; [rewrite Hk|]; apply Hm.
Qed.

Lemma reads_only_if {A} (c : bool) (m1 m2 : M A) :
  reads_only m1 -> reads_only m2 -> reads_only (if c then m1 else m2).
Proof. now destruct c. Qed.

Lemma reads_only_try body handler :
  reads_only body -> (forall x, reads_only (handler x)) ->
  reads_only (try_except body handler).
Proof.
  intros Hb Hh df. unfold try_except.
  destruct (outcome (body df)) as [a|x]; simpl; [|rewrite Hh]; apply Hb.
Qed.

#[export] Hint Resolve reads_only_ret reads_only_emit reads_only_call
  reads_only_col reads_only_rows reads_only_bind reads_only_if
  reads_only_try : frame.


(** ** Facts about the pandas operations *)

Section Pandas.

Implicit Types (s : Series) (v w : list float) (df : DataFrame)
  (idx : list Timestamp) (c : string).

Lemma labels_combine idx v :
  length idx = length v -> labels (combine idx v) = idx.
Proof.
  revert v. induction idx as [|l idx IH]; intros [|x v] Hlen;
    simpl in *; try discriminate; [done|].
  f_equal. apply IH. lia.
Qed.

Lemma values_combine idx v :
  length idx = length v -> values (combine idx v) = v.
Proof.
  revert v. induction idx as [|l idx IH]; intros [|x v] Hlen;
    simpl in *; try discriminate; [done|].
  f_equal. apply IH. lia.
Qed.

Lemma combine_labels_values s : combine (labels s) (values s) = s.
Proof. induction s as [|[l x] s IH]; simpl; congruence. Qed.

Lemma length_labels s : length (labels s) = length s.
Proof. apply length_map. Qed.

Lemma length_values s : length (values s) = length s.
Proof. apply length_map. Qed.

(** [df[c]] has one cell per row of a table whose column [c] is as long
    as its index. *)
Lemma getitem_Some df c s :
  getitem df c = Some s <->
  exists v, columns df !! c = Some v /\ s = combine (index df) v.
Proof.
  unfold getitem. destruct (columns df !! c) as [v|]; split.
  - intros [= <-]. eauto.
  - intros (v' & [= <-] & ->). done.
  - discriminate.
  - intros (v' & [=] & _).
Qed.

Lemma getitem_well_formed df c s :
  well_formed df -> getitem df c = Some s ->
  labels s = index df /\ length s = length (index df).
Proof.
  intros Hwf (v & Hv & ->)%getitem_Some. apply Hwf in Hv. cbn in Hv.
  split; [now apply labels_combine|].
  rewrite length_combine. lia.
Qed.

(** *** [dropna] *)

Lemma dropna_cons l x s :
  dropna ((l, x) :: s) =
    if F64.isnan x then dropna s else (l, x) :: dropna s.
Proof. unfold dropna. simpl. now destruct (F64.isnan x). Qed.

Lemma length_dropna s : (length (dropna s) <= length s)%nat.
Proof. apply List.filter_length_le. Qed.

Lemma length_dropna_missing s :
  (length (dropna s) + missing s = length s)%nat.
Proof.
  unfold dropna, missing. induction s as [|[l x] s IH]; simpl; [done|].
  destruct (F64.isnan x); simpl; lia.
Qed.

Lemma dropna_all s : missing s = 0%nat -> dropna s = s.
Proof.
  unfold dropna, missing. induction s as [|[l x] s IH]; simpl; [done|].
  destruct (F64.isnan x); simpl; [discriminate|].
  intros H. f_equal. auto.
Qed.

Lemma labels_dropna_incl s l : l ∈ labels (dropna s) -> l ∈ labels s.
Proof.
  induction s as [|[l' x] s IH]; [done|].
  rewrite dropna_cons. simpl.
  destruct (F64.isnan x); simpl; rewrite ?elem_of_cons; intuition.
Qed.

Lemma NoDup_labels_dropna s : NoDup (labels s) -> NoDup (labels (dropna s)).
Proof.
  induction s as [|[l x] s IH]; [done|].
  rewrite dropna_cons. simpl. intros [Hl Hs]%NoDup_cons.
  destruct (F64.isnan x); simpl; [auto|].
  apply NoDup_cons. split; [|auto].
  intros H. apply Hl. now apply labels_dropna_incl.
Qed.

(** *** Alignment *)

Lemma loc_not_in s l : l ∉ labels s -> loc s l = F64.nan.
Proof.
  induction s as [|[l' x] s IH]; [done|]. simpl.
  rewrite not_elem_of_cons. intros [Hne Hl].
  destruct (Z.eqb_spec l' l); [congruence | auto].
Qed.

(** Dropping the missing cells and aligning again on distinct labels
    gives the cells back: the rows that were dropped are filled with
    NaN, which is what they held. *)
Lemma loc_dropna s :
  NoDup (labels s) -> map (loc (dropna s)) (labels s) = values s.
Proof.
  induction s as [|[l x] s IH]; [done|]. intros Hnd.
  change (labels ((l, x) :: s)) with (l :: labels s) in *.
  change (values ((l, x) :: s)) with (x :: values s).
  apply NoDup_cons in Hnd as [Hl Hs].
  rewrite dropna_cons. cbn [map].
  destruct (F64.isnan x) eqn:Hx.
  - f_equal; [|auto]. rewrite loc_not_in.
    + now destruct x.
    + intros H. apply Hl. now apply labels_dropna_incl.
  - f_equal; [simpl; now rewrite Z.eqb_refl|].
    rewrite <- (IH Hs). apply map_ext_in. intros l' Hl'. simpl.
    destruct (Z.eqb_spec l l') as [->|_]; [|reflexivity].
    exfalso. now apply Hl, list_elem_of_In.
Qed.

Lemma reindex_dropna s :
  NoDup (labels s) -> reindex (dropna s) (labels s) = Ok (values s).
Proof.
  intros Hs. unfold reindex.
  destruct (decide (NoDup (labels (dropna s)))) as [_|Hn].
  - now rewrite loc_dropna.
  - exfalso. now apply Hn, NoDup_labels_dropna.
Qed.

(** *** Column assignment *)

Lemma setitem_Ok df c s df' :
  setitem df c s = Ok df' ->
  exists v, df' = {| index := index df;
                     columns := <[c := v]> (columns df) |}.
Proof.
  unfold setitem. destruct (decide _).
  - intros [= <-]. eauto.
  - destruct (reindex _ _) as [v|x]; [|discriminate].
    intros [= <-]. eauto.
Qed.

(** Assigning a series from which the missing cells were dropped, in a
    table whose labels are distinct. *)
Lemma setitem_dropna df c s :
  labels s = index df -> NoDup (index df) ->
  setitem df c (dropna s) =
    Ok {| index := index df; columns := <[c := values s]> (columns df) |}.
Proof.
  intros Hs Hnd. unfold setitem. destruct (decide _) as [Heq|_].
  - rewrite dropna_all; [done|].
    pose proof (length_dropna_missing s) as Hm.
    rewrite <- Hs in Heq. apply (f_equal (@length _)) in Heq.
    rewrite !length_labels in Heq. lia.
  - rewrite <- Hs. rewrite reindex_dropna; [done|]. now rewrite Hs.
Qed.

(** *** Percentage changes *)

Lemma length_shift v : length (shift v) = length v.
Proof. unfold shift. rewrite length_firstn. simpl. lia. Qed.

Lemma length_ffill_from y v : length (ffill_from y v) = length v.
Proof. revert y. induction v; simpl; auto. Qed.

Lemma length_zip_change v w :
  length v = length w -> length (zip_change v w) = length v.
Proof.
  revert w. induction v as [|x v IH]; intros [|y w]; simpl;
    auto; discriminate.
Qed.

Lemma labels_pct_change pads s : labels (pct_change pads s) = labels s.
Proof.
  unfold pct_change. apply labels_combine.
  rewrite length_zip_change by now rewrite length_shift.
  destruct pads; unfold ffill;
    now rewrite ?length_ffill_from, length_labels, length_values.
Qed.

Lemma values_pct_change pads s :
  values (pct_change pads s) =
    let data := if pads then ffill (values s) else values s in
    zip_change data (shift data).
Proof.
  unfold pct_change. apply values_combine.
  rewrite length_zip_change by now rewrite length_shift.
  destruct pads; unfold ffill;
    now rewrite ?length_ffill_from, length_labels, length_values.
Qed.

Lemma lookup_ffill_from y v t x :
  v !! t = Some x -> F64.isnan x = false -> ffill_from y v !! t = Some x.
Proof.
  revert y t. induction v as [|x' v IH]; intros y [|t]; simpl; try done.
  - intros [= ->] ->. done.
  - apply IH.
Qed.

Lemma lookup_zip_change_previous a v t y0 y1 :
  v !! t = Some y0 -> v !! S t = Some y1 ->
  zip_change v (firstn (length v) (a :: v)) !! S t = Some (change y1 y0).
Proof.
  revert a t. induction v as [|x v IH]; intros a t; [done|].
  destruct t as [|t]; simpl.
  - intros [= ->]. destruct v as [|x' v]; [done|].
    now intros [= ->].
  - intros H0 H1. apply (IH x t H0 H1).
Qed.

(** Row [t+1] of the percentage change is [y1 / y0 - 1] for the cells
    [y0], [y1] of rows [t] and [t+1], when neither is missing. *)
Lemma lookup_pct_change pads s t y0 y1 :
  values s !! t = Some y0 -> values s !! S t = Some y1 ->
  F64.isnan y0 = false -> F64.isnan y1 = false ->
  values (pct_change pads s) !! S t = Some (change y1 y0).
Proof.
  intros H0 H1 N0 N1. rewrite values_pct_change. cbv zeta. unfold shift.
  apply lookup_zip_change_previous; destruct pads; auto;
    now apply lookup_ffill_from.
Qed.

(** *** Division by a zero cell *)

Lemma change_zero_denominator y1 y0 :
  F64.iszero y0 = true -> F64.nonzero y1 = true ->
  F64.isinf (change y1 y0) = true.
Proof. destruct y0, y1; try discriminate; reflexivity. Qed.

Lemma change_zero_zero y1 y0 :
  F64.iszero y0 = true -> F64.iszero y1 = true ->
  F64.isnan (change y1 y0) = true.
Proof. destruct y0, y1; try discriminate; reflexivity. Qed.

End Pandas.

(** ** The steps, one by one *)

Section Steps.

Context {lib : Library}.
Implicit Types (df : DataFrame) (e : Event) (d : DecomposeResult).

Lemma col_ok df c s :
  getitem df c = Some s -> col c df = mkRun (Ok s) df [].
Proof. intros Hs. unfold col. now rewrite Hs. Qed.

Lemma page_col df c : page (col c df) = [].
Proof. unfold col. now destruct (getitem df c). Qed.

Lemma outcome_col_ok df c s :
  outcome (col c df) = Ok s <-> getitem df c = Some s.
Proof.
  unfold col. destruct (getitem df c); simpl; split; congruence.
Qed.

(** *** Frames *)

Lemma decomposition_step_reads_only : reads_only decomposition_step.
Proof. unfold decomposition_step. eauto 10 with frame. Qed.

Lemma trend_step_reads_only d : reads_only (trend_step d).
Proof. unfold trend_step. eauto with frame. Qed.

Lemma seasonality_step_reads_only d : reads_only (seasonality_step d).
Proof. unfold seasonality_step. eauto with frame. Qed.

Lemma irregularity_step_reads_only d : reads_only (irregularity_step d).
Proof. unfold irregularity_step. eauto with frame. Qed.

Lemma stationarity_step_reads_only : reads_only stationarity_step.
Proof. unfold stationarity_step. eauto 10 with frame. Qed.

Lemma correlation_step_reads_only : reads_only correlation_step.
Proof. unfold correlation_step. eauto 20 with frame. Qed.

Lemma mean_reversion_step_reads_only : reads_only mean_reversion_step.
Proof. unfold mean_reversion_step. eauto 10 with frame. Qed.


(** *** Runs of the steps that cannot fail *)

Lemma trend_step_run d df :
  trend_step d df =
    mkRun (Ok tt) df
      [Write (if F64.neqb (mean (dropna (trend d))) F64.zero
              then "- The time series has a trend component."
              else "- No significant trend detected.")].
Proof. unfold trend_step. now destruct (F64.neqb _ _). Qed.

Lemma seasonality_step_run d df :
  seasonality_step d df =
    mkRun (Ok tt) df
      [Write (if F64.neqb (mean (dropna (seasonal d))) F64.zero
              then "- The time series has a seasonal component."
              else "- No significant seasonality detected.")].
Proof. unfold seasonality_step. now destruct (F64.neqb _ _). Qed.

Lemma irregularity_step_run d df :
  irregularity_step d df =
    mkRun (Ok tt) df
      [Write (if F64.gtb (std (dropna (resid d))) F64.ten
              then "- The time series has irregular components."
              else "- No significant irregularity detected.")].
Proof. unfold irregularity_step. now destruct (F64.gtb _ _). Qed.

(** *** Runs of the steps that call the library *)

Lemma decomposition_step_ok df p d :
  getitem df "Passengers" = Some p ->
  seasonal_decompose p = Ok d ->
  decomposition_step df = mkRun (Ok d) df [Pyplot (DecompositionPlot d)].
Proof.
  intros Hp Hd. unfold decomposition_step, bind, call, emit, ret.
  rewrite (col_ok _ _ _ Hp). simpl. now rewrite Hd.
Qed.


Lemma stationarity_step_ok df p result :
  getitem df "Passengers" = Some p ->
  adfuller (dropna p) = Ok result ->
  stationarity_step df =
    mkRun (Ok tt) df
      [Write (if F64.ltb (pvalue result) F64.five_percent
              then "- The time series is stationary."
              else "- The time series is not stationary.")].
Proof.
  intros Hp Hr. unfold stationarity_step, bind, call, emit.
  rewrite (col_ok _ _ _ Hp). simpl. rewrite Hr. simpl.
  now destruct (F64.ltb _ _).
Qed.

Lemma correlation_step_ok df p acf_values pacf_values :
  getitem df "Passengers" = Some p ->
  acf (dropna p) (lags (len df)) = Ok acf_values ->
  pacf (dropna p) (lags (len df)) = Ok pacf_values ->
  correlation_step df =
    mkRun (Ok tt) df [Pyplot (Correlogram acf_values pacf_values)].
Proof.
  intros Hp Ha Hpa. unfold correlation_step, bind, call, emit, rows.
  simpl. rewrite (col_ok _ _ _ Hp). simpl. rewrite Ha. simpl.
  rewrite (col_ok _ _ _ Hp). simpl. now rewrite Hpa.
Qed.

Lemma mean_reversion_step_ok df p :
  getitem df "Passengers" = Some p ->
  mean_reversion_step df =
    mkRun (Ok tt) df
      [Write (if F64.gtb (std (dropna (rolling_mean 12 p))) F64.ten
              then "- The time series exhibits mean reversion."
              else "- No significant mean reversion detected.")].
Proof.
  intros Hp. unfold mean_reversion_step, bind, emit.
  rewrite (col_ok _ _ _ Hp). simpl. now destruct (F64.gtb _ _).
Qed.

(** *** What each step can show *)

Lemma decomposition_step_shows df e :
  e ∈ page (decomposition_step df) ->
  exists p d, getitem df "Passengers" = Some p /\
              seasonal_decompose p = Ok d /\
              e = Pyplot (DecompositionPlot d).
Proof.
  unfold decomposition_step. rewrite elem_of_page_bind, page_col.
  intros [H|(p & Hp & H)]; [now apply elem_of_nil in H|].
  apply outcome_col_ok in Hp.
  rewrite (reads_only_col _ df) in H.
  apply elem_of_page_bind in H as [H|(d & Hd & H)];
    [now apply elem_of_nil in H|].
  cbn in Hd, H. apply elem_of_page_bind in H as [H|(? & _ & H)];
    [|now apply elem_of_nil in H].
  apply list_elem_of_singleton in H. eauto.
Qed.

Lemma stationarity_step_shows df e :
  e ∈ page (stationarity_step df) ->
  e = Write "- The time series is stationary." \/
  e = Write "- The time series is not stationary.".
Proof.
  unfold stationarity_step. rewrite elem_of_page_bind, page_col.
  intros [H|(p & Hp & H)]; [now apply elem_of_nil in H|].
  apply elem_of_page_bind in H as [H|(r & Hr & H)];
    [now apply elem_of_nil in H|].
  destruct (F64.ltb _ _); apply list_elem_of_singleton in H; auto.
Qed.

Lemma correlation_step_shows df e :
  e ∈ page (correlation_step df) ->
  exists p acf_values pacf_values,
    getitem df "Passengers" = Some p /\
    acf (dropna p) (lags (len df)) = Ok acf_values /\
    pacf (dropna p) (lags (len df)) = Ok pacf_values /\
    e = Pyplot (Correlogram acf_values pacf_values).
Proof.
  unfold correlation_step. rewrite elem_of_page_bind.
  intros [H|(n & Hn & H)]; [now apply elem_of_nil in H|].
  cbn in Hn, H. injection Hn as <-.
  apply elem_of_page_bind in H as [H|(p & Hp & H)];
    [now rewrite page_col in H; apply elem_of_nil in H|].
  apply outcome_col_ok in Hp. rewrite (reads_only_col _ df) in H.
  apply elem_of_page_bind in H as [H|(a & Ha & H)];
    [now apply elem_of_nil in H|].
  cbn in Ha, H.
  apply elem_of_page_bind in H as [H|(p' & Hp' & H)];
    [now rewrite page_col in H; apply elem_of_nil in H|].
  apply outcome_col_ok in Hp'. rewrite (reads_only_col _ df) in H.
  assert (p' = p) as -> by congruence.
  apply elem_of_page_bind in H as [H|(pa & Hpa & H)];
    [now apply elem_of_nil in H|].
  cbn in Hpa, H. apply list_elem_of_singleton in H.
  exists p, a, pa. auto.
Qed.

Lemma mean_reversion_step_shows df e :
  e ∈ page (mean_reversion_step df) ->
  e = Write "- The time series exhibits mean reversion." \/
  e = Write "- No significant mean reversion detected.".
Proof.
  unfold mean_reversion_step. rewrite elem_of_page_bind, page_col.
  intros [H|(p & Hp & H)]; [now apply elem_of_nil in H|].
  destruct (F64.gtb _ _); apply list_elem_of_singleton in H; auto.
Qed.


Lemma volatility_step_ok df p df' :
  getitem df "Passengers" = Some p ->
  setitem df "Returns" (dropna (pct_change pct_change_pads p)) = Ok df' ->
  exists returns,
    getitem df' "Returns" = Some returns /\
    volatility_step df = mkRun (Ok tt) df' [volatility_line returns].
Proof.
  intros Hp Hs. destruct (setitem_Ok _ _ _ _ Hs) as (v & ->).
  exists (combine (index df) v). split.
  - unfold getitem. simpl. now rewrite lookup_insert_eq.
  - unfold volatility_step, bind, setcol, emit.
    rewrite (col_ok _ _ _ Hp). cbn. rewrite Hs. cbn.
    unfold col, getitem. cbn. now rewrite lookup_insert_eq.
Qed.

Lemma volatility_step_raise df p x :
  getitem df "Passengers" = Some p ->
  setitem df "Returns" (dropna (pct_change pct_change_pads p)) = Raise x ->
  volatility_step df = mkRun (Raise x) df [].
Proof.
  intros Hp Hs. unfold volatility_step, bind, setcol.
  rewrite (col_ok _ _ _ Hp). cbn. now rewrite Hs.
Qed.

(** The step either fails and leaves the table alone, or assigns the
    column and writes one line. *)
Lemma volatility_step_cases df :
  (exists x, volatility_step df = mkRun (Raise x) df []) \/
  (exists p df' returns,
      getitem df "Passengers" = Some p /\
      setitem df "Returns" (dropna (pct_change pct_change_pads p)) = Ok df' /\
      getitem df' "Returns" = Some returns /\
      volatility_step df = mkRun (Ok tt) df' [volatility_line returns]).
Proof.
  destruct (getitem df "Passengers") as [p|] eqn:Hp.
  - destruct (setitem df "Returns" (dropna (pct_change pct_change_pads p)))
      as [df'|x] eqn:Hs.
    + right. destruct (volatility_step_ok _ _ _ Hp Hs) as (r & Hr & Hv).
      exists p, df', r. auto.
    + left. exists x. now apply (volatility_step_raise df p).
  - left. eexists. unfold volatility_step, bind, col. now rewrite Hp.
Qed.

(** In a table with one cell per row and distinct labels, the step
    cannot fail: the new column is the percentage change itself, and the
    volatility is the standard deviation of that column. *)
Lemma volatility_step_run df p :
  well_formed df -> NoDup (index df) ->
  getitem df "Passengers" = Some p ->
  volatility_step df =
    mkRun (Ok tt)
      {| index := index df;
         columns := <["Returns" := values (pct_change pct_change_pads p)]>
                      (columns df) |}
      [volatility_line (pct_change pct_change_pads p)].
Proof.
  intros Hwf Hnd Hp.
  destruct (getitem_well_formed _ _ _ Hwf Hp) as [Hl _].
  assert (labels (pct_change pct_change_pads p) = index df) as Hl'
    by now rewrite labels_pct_change.
  pose proof (setitem_dropna df "Returns" _ Hl' Hnd) as Hs.
  destruct (volatility_step_ok _ _ _ Hp Hs) as (r & Hr & ->).
  unfold getitem in Hr. cbn in Hr. rewrite lookup_insert_eq in Hr.
  injection Hr as <-. now rewrite <- Hl', combine_labels_values.
Qed.

Lemma volatility_step_shows df e :
  e ∈ page (volatility_step df) -> exists returns, e = volatility_line returns.
Proof.
  destruct (volatility_step_cases df) as [(x & ->)|(p & df' & r & _ & _ & _ & ->)];
    cbn; [now intros H%elem_of_nil|].
  intros H%list_elem_of_singleton. eauto.
Qed.

End Steps.

(** ** The analysis as a whole *)

Section Analysis.

Context {lib : Library}.
Implicit Types (df : DataFrame) (e : Event) (d : DecomposeResult).

Lemma component_analysis_run d df :
  component_analysis d df =
    mkRun (Ok tt) df
      [Write "Analysis of the time series:";
       trend_line d; seasonality_line d; irregularity_line d].
Proof.
  unfold component_analysis, bind, emit. cbn.
  rewrite trend_step_run. cbn. rewrite seasonality_step_run. cbn.
  now rewrite irregularity_step_run.
Qed.

(** What the series diagnostics can show. *)
Lemma series_analysis_shows df e :
  e ∈ page (series_analysis df) ->
  e ∈ page (stationarity_step df) \/
  e ∈ page (correlation_step df) \/
  e ∈ page (mean_reversion_step df) \/
  e ∈ page (volatility_step df).
Proof.
  unfold series_analysis.
  intros [H|(_ & _ & H)]%elem_of_page_bind; [auto|].
  rewrite stationarity_step_reads_only in H.
  apply elem_of_page_bind in H as [H|(_ & _ & H)]; [auto|].
  rewrite correlation_step_reads_only in H.
  apply elem_of_page_bind in H as [H|(_ & _ & H)]; [auto|].
  rewrite mean_reversion_step_reads_only in H. auto.
Qed.

(** The stationarity verdict comes first: it is shown whatever happens
    afterwards. *)
Lemma series_analysis_stationarity df e :
  e ∈ page (stationarity_step df) -> e ∈ page (series_analysis df).
Proof. intros H. apply elem_of_page_bind. now left. Qed.

(** The series diagnostics either fail, leaving the table alone, or run
    to the end, where the table has been assigned its new column. *)
Lemma series_analysis_cases df :
  (exists x, outcome (series_analysis df) = Raise x /\
             frame (series_analysis df) = df) \/
  (exists p df',
      getitem df "Passengers" = Some p /\
      setitem df "Returns" (dropna (pct_change pct_change_pads p)) = Ok df' /\
      outcome (series_analysis df) = Ok tt /\
      frame (series_analysis df) = df').
Proof.
  unfold series_analysis, bind.
  pose proof (stationarity_step_reads_only df) as F1.
  destruct (outcome (stationarity_step df)) as [[]|x]; cbn;
    [|left; eauto].
  rewrite F1. pose proof (correlation_step_reads_only df) as F2.
  destruct (outcome (correlation_step df)) as [[]|x]; cbn;
    [|left; eauto].
  rewrite F2. pose proof (mean_reversion_step_reads_only df) as F3.
  destruct (outcome (mean_reversion_step df)) as [[]|x]; cbn;
    [|left; eauto].
  rewrite F3.
  destruct (volatility_step_cases df)
    as [(x & ->)|(p & df' & r & Hp & Hs & _ & ->)]; cbn.
  - left. eauto.
  - right. exists p, df'. auto.
Qed.

Lemma diagnostics_ok df d :
  outcome (decomposition_step df) = Ok d ->
  diagnostics df =
    mkRun (outcome (series_analysis df)) (frame (series_analysis df))
      (page (decomposition_step df) ++
       [Write "Analysis of the time series:";
        trend_line d; seasonality_line d; irregularity_line d] ++
       page (series_analysis df)).
Proof.
  intros Hd. unfold diagnostics. rewrite (bind_ok _ _ _ _ Hd).
  rewrite decomposition_step_reads_only.
  unfold bind at 1 2 3. rewrite component_analysis_run. now cbn.
Qed.

Lemma diagnostics_raise df x :
  outcome (decomposition_step df) = Raise x ->
  diagnostics df = mkRun (Raise x) df (page (decomposition_step df)).
Proof.
  intros Hd. unfold diagnostics. rewrite (bind_raise _ _ _ _ Hd).
  now rewrite decomposition_step_reads_only.
Qed.

(** The page of the analysis: the heading, what the diagnostics showed,
    and the report of the exception that stopped them, if any. *)
Lemma analysis_run df :
  analysis df =
    mkRun (Ok tt) (frame (diagnostics df))
      (Subheader "Time Series Decomposition" ::
       page (diagnostics df) ++
       match outcome (diagnostics df) with
       | Ok _ => []
       | Raise x => [Error ("Error during analysis: " +:+ x)]
       end).
Proof.
  unfold analysis, bind, emit, try_except, report. cbn.
  destruct (outcome (diagnostics df)) as [[]|x] eqn:Ho; cbn;
    now rewrite ?Ho, ?app_nil_r.
Qed.


Lemma analysis_shows df e :
  e ∈ page (analysis df) <->
  e = Subheader "Time Series Decomposition" \/
  e ∈ page (diagnostics df) \/
  exists x, outcome (diagnostics df) = Raise x /\
            e = Error ("Error during analysis: " +:+ x).
Proof.
  rewrite analysis_run. cbn. rewrite elem_of_cons, elem_of_app.
  destruct (outcome (diagnostics df)) as [[]|x].
  - rewrite elem_of_nil. split; [tauto|].
    intros [H|[H|(x & Hx & _)]]; [tauto..|discriminate].
  - rewrite list_elem_of_singleton. split.
    + intros [H|[H|H]]; eauto.
    + intros [H|[H|(x' & [= <-] & H)]]; auto.
Qed.

Lemma diagnostics_shows df d e :
  outcome (decomposition_step df) = Ok d ->
  e ∈ page (diagnostics df) <->
  e ∈ page (decomposition_step df) \/
  e ∈ [Write "Analysis of the time series:";
       trend_line d; seasonality_line d; irregularity_line d] \/
  e ∈ page (series_analysis df).
Proof.
  intros Hd. rewrite (diagnostics_ok _ _ Hd). cbn [page].
  now rewrite !elem_of_app.
Qed.

(** A line of text is shown by a run whose decomposition succeeded
    exactly when it is one of the four lines on the components or a line
    of the series diagnostics. *)
Lemma analysis_writes df p d text :
  getitem df "Passengers" = Some p ->
  seasonal_decompose p = Ok d ->
  Write text ∈ page (analysis df) <->
  Write text ∈ [Write "Analysis of the time series:";
                trend_line d; seasonality_line d; irregularity_line d] \/
  Write text ∈ page (series_analysis df).
Proof.
  intros Hp Hd. pose proof (decomposition_step_ok _ _ _ Hp Hd) as Hstep.
  assert (outcome (decomposition_step df) = Ok d) as Ho by now rewrite Hstep.
  rewrite analysis_shows, (diagnostics_shows _ _ _ Ho), Hstep. cbn [page].
  rewrite list_elem_of_singleton. split.
  - intros [H|[[H|H]|(x & _ & H)]]; try discriminate; auto.
  - auto.
Qed.


(** *** The page around the analysis *)

Lemma about_run pressed df :
  about pressed df =
    mkRun (Ok tt) df
      (Button "Want to know more about Time Series" ::
       if pressed
       then [Subheader "About Time Series Analysis";
             Write "**What is Time Series Analysis?**"]
       else []).
Proof. now destruct pressed. Qed.

Lemma preview_run df p :
  getitem df "Passengers" = Some p ->
  preview df =
    mkRun (Ok tt) df
      [Write "Data successfully loaded:"; WriteTable (head df);
       Subheader "Time Series Plot";
       Pyplot (LinePlot (index df) (values p))].
Proof.
  intros Hp. unfold preview, bind, emit. cbn.
  now rewrite (col_ok _ _ _ Hp).
Qed.

Lemma loaded_with_passengers pressed df p :
  getitem df "Passengers" = Some p ->
  loaded pressed df =
    mkRun (Ok tt) (frame (analysis df))
      ([Write "Data successfully loaded:"; WriteTable (head df);
        Subheader "Time Series Plot";
        Pyplot (LinePlot (index df) (values p))] ++
       page (analysis df) ++
       page (about pressed (frame (analysis df)))).
Proof.
  intros Hp. pose proof Hp as (v & Hv & _)%getitem_Some.
  assert (outcome (preview df) = Ok tt) as Hpre
    by now rewrite (preview_run _ _ Hp).
  unfold loaded, bind at 1. rewrite Hv.
  rewrite (bind_ok _ _ _ _ Hpre), (preview_run _ _ Hp). cbn [frame page].
  rewrite analysis_run. cbn [outcome frame page].
  rewrite about_run. cbn [outcome frame page].
  now rewrite <- !app_assoc.
Qed.

Lemma loaded_without_passengers pressed df :
  columns df !! "Passengers" = None ->
  loaded pressed df =
    mkRun (Ok tt) df
      (Error "CSV file must contain a 'Passengers' column." ::
       page (about pressed df)).
Proof.
  intros Hv. unfold loaded, bind at 1. rewrite Hv. cbn.
  now rewrite about_run.
Qed.

End Analysis.

(** ** The wording of the lines *)

Section Lines.

Context {lib : Library}.
Implicit Types (df : DataFrame) (d : DecomposeResult) (text : string).

Lemma component_lines d text :
  Write text ∈ [Write "Analysis of the time series:";
                trend_line d; seasonality_line d; irregularity_line d] ->
  text ∈ ["Analysis of the time series:";
          "- The time series has a trend component.";
          "- No significant trend detected.";
          "- The time series has a seasonal component.";
          "- No significant seasonality detected.";
          "- The time series has irregular components.";
          "- No significant irregularity detected."].
Proof.
  unfold trend_line, seasonality_line, irregularity_line.
  rewrite !elem_of_cons, !elem_of_nil.
  destruct (F64.neqb _ _), (F64.neqb _ _), (F64.gtb _ _);
    intros [H|[H|[H|[H|[]]]]]; injection H as ->; tauto.
Qed.

Lemma series_analysis_lines df text :
  Write text ∈ page (series_analysis df) ->
  Write text ∈ page (stationarity_step df) \/
  text ∈ ["- The time series exhibits mean reversion.";
          "- No significant mean reversion detected."] \/
  exists returns, Write text = volatility_line returns.
Proof.
  intros [H|[H|[H|H]]]%series_analysis_shows.
  - now left.
  - apply correlation_step_shows in H as (? & ? & ? & _ & _ & _ & H).
    discriminate.
  - right; left. rewrite !elem_of_cons.
    apply mean_reversion_step_shows in H as [[= ->]|[= ->]]; auto.
  - right; right. now apply (volatility_step_shows df).
Qed.

End Lines.

(** Closes a goal with a hypothesis placing a literal text in a list of
    other texts, or equating it with the volatility line. *)
Ltac wrong_text H :=
  exfalso; revert H; unfold volatility_line;
  rewrite ?elem_of_cons, ?elem_of_nil;
  cbn; intuition (try discriminate);
  repeat match goal with
         | H : ex _ |- _ => destruct H
         end; discriminate.

(** ** The verdicts *)

Section Claims.

Context {lib : Library}.
Implicit Types (df : DataFrame) (p : Series) (d : DecomposeResult).

Lemma neqb_zero (x : float) :
  F64.neqb x F64.zero = negb (F64.iszero x).
Proof. now destruct x as [[]|[]| |[] ? ?]. Qed.

(** C8. In a run whose decomposition succeeded, the page says that the
    series has a trend exactly when the mean of the trend cells that are
    present differs from zero under Python's [!=] on floats, that is,
    when it is not a zero of either sign -- any other value, however
    small, and the NaN included; otherwise the page says that no trend was
    detected. *)
Theorem trend_verdict df p d :
  getitem df "Passengers" = Some p ->
  seasonal_decompose p = Ok d ->
  (Write "- The time series has a trend component." ∈ page (analysis df)
   <-> F64.neqb (mean (dropna (trend d))) F64.zero = true) /\
  (Write "- No significant trend detected." ∈ page (analysis df)
   <-> F64.neqb (mean (dropna (trend d))) F64.zero = false) /\
  (F64.neqb (mean (dropna (trend d))) F64.zero = true
   <-> F64.iszero (mean (dropna (trend d))) = false).
Proof.
  intros Hp Hd. rewrite !(analysis_writes _ _ _ _ Hp Hd).
  repeat split.
  - intros [H|H].
    + revert H. unfold trend_line, seasonality_line, irregularity_line.
      rewrite !elem_of_cons, !elem_of_nil.
      destruct (F64.neqb (mean (dropna (trend d))) _); [done|].
      destruct (F64.neqb _ _), (F64.gtb _ _);
        intuition discriminate.
    + apply series_analysis_lines in H as [H|[H|H]].
      * apply stationarity_step_shows in H. intuition discriminate.
      * wrong_text H.
      * wrong_text H.
  - intros H. left. unfold trend_line. rewrite H.
    rewrite !elem_of_cons. auto.
  - intros [H|H].
    + revert H. unfold trend_line, seasonality_line, irregularity_line.
      rewrite !elem_of_cons, !elem_of_nil.
      destruct (F64.neqb (mean (dropna (trend d))) _); [|done].
      destruct (F64.neqb _ _), (F64.gtb _ _);
        intuition discriminate.
    + apply series_analysis_lines in H as [H|[H|H]].
      * apply stationarity_step_shows in H. intuition discriminate.
      * wrong_text H.
      * wrong_text H.
  - intros H. left. unfold trend_line. rewrite H.
    rewrite !elem_of_cons. auto.
  - rewrite neqb_zero. now destruct (F64.iszero _).
  - rewrite neqb_zero. now intros ->.
Qed.


(** C4. In a run that reaches the ADF test, the page says that the series
    is stationary exactly when the p-value the test returned is strictly
    below 0.05 under Python's [<] on floats, and says that it is not
    stationary otherwise (a NaN p-value included). *)
Theorem stationarity_verdict df p d result :
  getitem df "Passengers" = Some p ->
  seasonal_decompose p = Ok d ->
  adfuller (dropna p) = Ok result ->
  (Write "- The time series is stationary." ∈ page (analysis df)
   <-> F64.ltb (pvalue result) F64.five_percent = true) /\
  (Write "- The time series is not stationary." ∈ page (analysis df)
   <-> F64.ltb (pvalue result) F64.five_percent = false).
Proof.
  intros Hp Hd Hr. rewrite !(analysis_writes _ _ _ _ Hp Hd).
  pose proof (stationarity_step_ok _ _ _ Hp Hr) as Hstep.
  split; split.
  - intros [H|H]; [apply component_lines in H; wrong_text H|].
    apply series_analysis_lines in H as [H|[H|H]];
      [|wrong_text H|wrong_text H].
    rewrite Hstep in H. apply list_elem_of_singleton in H.
    now destruct (F64.ltb _ _).
  - intros H. right. apply series_analysis_stationarity.
    rewrite Hstep, H. now apply list_elem_of_singleton.
  - intros [H|H]; [apply component_lines in H; wrong_text H|].
    apply series_analysis_lines in H as [H|[H|H]];
      [|wrong_text H|wrong_text H].
    rewrite Hstep in H. apply list_elem_of_singleton in H.
    now destruct (F64.ltb _ _).
  - intros H. right. apply series_analysis_stationarity.
    rewrite Hstep, H. now apply list_elem_of_singleton.
Qed.

(** C5. Whatever correlogram the page shows was computed, for both the
    ACF and the PACF, with [nlags = min(n - 1, 40)], where [n] is the
    number of rows of the table, on the [Passengers] cells that are
    present. *)
Theorem correlogram_lags df acf_values pacf_values :
  Pyplot (Correlogram acf_values pacf_values) ∈ page (analysis df) ->
  exists p,
    getitem df "Passengers" = Some p /\
    acf (dropna p) (Z.min (len df - 1) 40) = Ok acf_values /\
    pacf (dropna p) (Z.min (len df - 1) 40) = Ok pacf_values.
Proof.
  intros [H|[H|(x & _ & H)]]%analysis_shows; try discriminate.
  assert (Pyplot (Correlogram acf_values pacf_values)
            ∈ page (series_analysis df)) as Hs.
  { destruct (outcome (decomposition_step df)) as [d|x] eqn:Hd.
    - rewrite (diagnostics_shows _ _ _ Hd) in H.
      destruct H as [H|[H|H]]; [| |done].
      + apply decomposition_step_shows in H as (? & ? & _ & _ & H).
        discriminate.
      + revert H. unfold trend_line, seasonality_line, irregularity_line.
        rewrite !elem_of_cons, elem_of_nil. intuition discriminate.
    - rewrite (diagnostics_raise _ _ Hd) in H.
      apply decomposition_step_shows in H as (? & ? & _ & _ & H).
      discriminate. }
  apply series_analysis_shows in Hs as [Hs|[Hs|[Hs|Hs]]].
  - apply stationarity_step_shows in Hs. intuition discriminate.
  - apply correlation_step_shows in Hs
      as (p & a & pa & Hp & Ha & Hpa & [= -> ->]).
    exists p. auto.
  - apply mean_reversion_step_shows in Hs. intuition discriminate.
  - apply volatility_step_shows in Hs as (r & Hs). discriminate.
Qed.



(** C7, as amended. In a table with one cell per row and distinct
    labels the volatility step never fails; the volatility it writes is
    the standard deviation of the new [Returns] column, which is the
    percentage change itself.  A zero cell followed by a non-zero one is
    not skipped: the change is infinite and is a cell of the column the
    standard deviation is taken of. *)
Theorem volatility_keeps_infinite_changes df p t y0 y1 :
  well_formed df -> NoDup (index df) ->
  getitem df "Passengers" = Some p ->
  values p !! t = Some y0 -> values p !! S t = Some y1 ->
  F64.iszero y0 = true -> F64.nonzero y1 = true ->
  let returns := pct_change pct_change_pads p in
  volatility_step df =
    mkRun (Ok tt)
      {| index := index df;
         columns := <["Returns" := values returns]> (columns df) |}
      [Write ("- The volatility of the time series is "
              +:+ format_2f (std returns) +:+ ".")] /\
  values returns !! S t = Some (change y1 y0) /\
  F64.isinf (change y1 y0) = true.
Proof.
  intros Hwf Hnd Hp H0 H1 Hz Hnz returns. split; [|split].
  - apply (volatility_step_run _ _ Hwf Hnd Hp).
  - apply lookup_pct_change; auto.
    + now destruct y0.
    + now destruct y1.
  - now apply change_zero_denominator.
Qed.

(** C9. A run whose diagnostics complete has assigned the column
    [Returns] of the table it was given: the index and every other
    column are as before, and in a table with one cell per row and
    distinct labels the new column is the percentage change of
    [Passengers]; a table that had no such column is therefore not the
    table it was. *)
Theorem analysis_assigns_returns df :
  outcome (diagnostics df) = Ok tt ->
  exists p v,
    getitem df "Passengers" = Some p /\
    index (frame (analysis df)) = index df /\
    columns (frame (analysis df)) !! "Returns" = Some v /\
    (forall c, c <> "Returns" ->
               columns (frame (analysis df)) !! c = columns df !! c) /\
    (columns df !! "Returns" = None -> frame (analysis df) <> df) /\
    (well_formed df -> NoDup (index df) ->
     v = values (pct_change pct_change_pads p)).
Proof.
  intros Hrun. rewrite analysis_run. cbn [frame].
  destruct (outcome (decomposition_step df)) as [d|x] eqn:Hd;
    [|now rewrite (diagnostics_raise _ _ Hd) in Hrun].
  rewrite (diagnostics_ok _ _ Hd) in Hrun |- *. cbn in Hrun |- *.
  destruct (series_analysis_cases df)
    as [(x & Hx & _)|(p & df' & Hp & Hs & _ & ->)]; [congruence|].
  destruct (setitem_Ok _ _ _ _ Hs) as (v & ->). cbn.
  exists p, v. repeat split; auto.
  - apply lookup_insert_eq.
  - intros c Hc. now apply lookup_insert_ne.
  - intros Hnone Heq. apply (f_equal (fun t => columns t !! "Returns")) in Heq.
    cbn in Heq. rewrite lookup_insert_eq in Heq. congruence.
  - intros Hwf Hnd.
    destruct (getitem_well_formed _ _ _ Hwf Hp) as [Hl _].
    rewrite setitem_dropna in Hs;
      [|now rewrite labels_pct_change|done].
    injection Hs as Hs.
    apply (f_equal (lookup "Returns")) in Hs.
    rewrite !lookup_insert_eq in Hs. congruence.
Qed.

(** A run whose diagnostics stop on an exception leaves the table as it
    was. *)
Lemma analysis_failure_frame df x :
  outcome (diagnostics df) = Raise x -> frame (analysis df) = df.
Proof.
  intros Hrun. rewrite analysis_run. cbn [frame].
  destruct (outcome (decomposition_step df)) as [d|x'] eqn:Hd.
  - rewrite (diagnostics_ok _ _ Hd) in Hrun |- *. cbn in Hrun |- *.
    destruct (series_analysis_cases df)
      as [(? & _ & ->)|(? & ? & _ & _ & Ho & _)]; [done | congruence].
  - now rewrite (diagnostics_raise _ _ Hd).
Qed.

End Claims.


(** ** The script on the sample tables *)


Ltac by_evaluation := apply (bool_decide_unpack _); vm_compute; exact I.

Ltac shown :=
  vm_compute;
  repeat first [apply list_elem_of_here | apply list_elem_of_further].

Lemma trend_verdict_witness :
  let lib := Sample.library in
  let p := Sample.cells 84 Sample.rising_cell in
  let d := Sample.trivial p in
  (Write "- The time series has a trend component."
     ∈ page (analysis Sample.rising)
   <-> F64.neqb (mean (dropna (trend d))) F64.zero = true) /\
  (Write "- No significant trend detected." ∈ page (analysis Sample.rising)
   <-> F64.neqb (mean (dropna (trend d))) F64.zero = false) /\
  (F64.neqb (mean (dropna (trend d))) F64.zero = true
   <-> F64.iszero (mean (dropna (trend d))) = false).
Proof.
  intros lib p d.
  assert (getitem Sample.rising "Passengers" = Some p) as Hp
    by reflexivity.
  assert (seasonal_decompose p = Ok d) as Hd by (vm_compute; reflexivity).
  exact (trend_verdict Sample.rising p d Hp Hd).
Defined.

Lemma stationarity_verdict_witness :
  let lib := Sample.library in
  let p := Sample.cells 84 Sample.rising_cell in
  let result := Sample.unit_root (dropna p) in
  (Write "- The time series is stationary." ∈ page (analysis Sample.rising)
   <-> F64.ltb (pvalue result) F64.five_percent = true) /\
  (Write "- The time series is not stationary."
     ∈ page (analysis Sample.rising)
   <-> F64.ltb (pvalue result) F64.five_percent = false).
Proof.
  intros lib p result.
  assert (getitem Sample.rising "Passengers" = Some p) as Hp
    by reflexivity.
  assert (seasonal_decompose p = Ok (Sample.trivial p)) as Hd
    by (vm_compute; reflexivity).
  assert (adfuller (dropna p) = Ok result) as Hr
    by (vm_compute; reflexivity).
  exact (stationarity_verdict Sample.rising p (Sample.trivial p) result
           Hp Hd Hr).
Defined.

Lemma correlogram_lags_witness :
  let lib := Sample.library in
  exists p,
    getitem Sample.rising "Passengers" = Some p /\
    acf (dropna p) (Z.min (len Sample.rising - 1) 40)
      = Ok (Sample.white 40) /\
    pacf (dropna p) (Z.min (len Sample.rising - 1) 40)
      = Ok (Sample.white 40).
Proof.
  intros lib.
  assert (Pyplot (Correlogram (Sample.white 40) (Sample.white 40))
            ∈ page (analysis Sample.rising)) as Hshown by shown.
  exact (correlogram_lags Sample.rising _ _ Hshown).
Defined.


Lemma volatility_keeps_infinite_changes_witness :
  let lib := Sample.library in
  let p := Sample.cells 84 Sample.with_zero_cell in
  let returns := pct_change pct_change_pads p in
  volatility_step Sample.with_zero =
    mkRun (Ok tt)
      {| index := index Sample.with_zero;
         columns := <["Returns" := values returns]>
                      (columns Sample.with_zero) |}
      [Write ("- The volatility of the time series is "
              +:+ format_2f (std returns) +:+ ".")] /\
  values returns !! 11%nat = Some (change (Sample.rising_cell 11) F64.zero) /\
  F64.isinf (change (Sample.rising_cell 11) F64.zero) = true.
Proof.
  intros lib p returns.
  assert (well_formed Sample.with_zero) as Hwf by by_evaluation.
  assert (NoDup (index Sample.with_zero)) as Hnd by by_evaluation.
  assert (getitem Sample.with_zero "Passengers" = Some p) as Hp
    by reflexivity.
  assert (values p !! 10%nat = Some F64.zero) as H0 by reflexivity.
  assert (values p !! 11%nat = Some (Sample.rising_cell 11)) as H1
    by reflexivity.
  exact (volatility_keeps_infinite_changes Sample.with_zero p 10
           F64.zero (Sample.rising_cell 11) Hwf Hnd Hp H0 H1
           eq_refl eq_refl).
Defined.

Lemma analysis_assigns_returns_witness :
  let lib := Sample.library in
  outcome (diagnostics Sample.rising) = Ok tt /\
  exists p v,
    getitem Sample.rising "Passengers" = Some p /\
    index (frame (analysis Sample.rising)) = index Sample.rising /\
    columns (frame (analysis Sample.rising)) !! "Returns" = Some v /\
    (forall c, c <> "Returns" ->
               columns (frame (analysis Sample.rising)) !! c
               = columns Sample.rising !! c) /\
    (columns Sample.rising !! "Returns" = None ->
     frame (analysis Sample.rising) <> Sample.rising) /\
    (well_formed Sample.rising -> NoDup (index Sample.rising) ->
     v = values (pct_change pct_change_pads p)).
Proof.
  intros lib.
  assert (outcome (diagnostics Sample.rising) = Ok tt) as Hrun
    by (vm_compute; reflexivity).
  split; [exact Hrun|].
  exact (analysis_assigns_returns Sample.rising Hrun).
Defined.


(** C7, as stated, fails on the table with one month at zero.  The cell of
    row 10 is zero and the change of row 11 divides by it; that row is not
    skipped: its cell in the column [Returns] is the infinity, the
    volatility is computed from that column, and what the page shows for it
    is not a number.  The run completes: no exception is raised.  In a
    table of two rows whose first cell is zero the only change there is
    divides by zero, and the step still does not fail. *)
Lemma volatility_zero_denominator_counterexample :
  let lib := Sample.library in
  let p := Sample.cells 84 Sample.with_zero_cell in
  let run := analysis Sample.with_zero in
  let returns := pct_change false p in
  let two := Sample.table 2 (fun i => if (i =? 0)%nat then F64.zero
                                      else F64.one) in
  getitem Sample.with_zero "Passengers" = Some p /\
  values p !! 10%nat = Some F64.zero /\
  getitem (frame run) "Returns" = Some returns /\
  values returns !! 11%nat = Some F64.infinity /\
  volatility_line returns ∈ page run /\
  volatility_line returns
    = Write "- The volatility of the time series is nan." /\
  outcome (diagnostics Sample.with_zero) = Ok tt /\
  outcome (volatility_step two) = Ok tt /\
  columns (frame (volatility_step two)) !! "Returns"
    = Some [F64.nan; F64.infinity].
Proof.
  intros lib p run returns two.
  split; [reflexivity|]. split; [reflexivity|].
  split; [vm_compute; reflexivity|]. split; [vm_compute; reflexivity|].
  split; [shown|]. split; [vm_compute; reflexivity|].
  split; [vm_compute; reflexivity|]. split; vm_compute; reflexivity.
Qed.

(** ** Further properties of the script *)

Section Further.

Context {lib : Library}.
Implicit Types (df : DataFrame) (p : Series) (d : DecomposeResult)
  (e : Event) (text : string).

(** *** The other verdicts on the components *)

(** One of the six texts of the component verdicts is on the page of a run
    whose decomposition succeeded exactly when it is the line of its step. *)
Lemma component_text_shown df p d text :
  getitem df "Passengers" = Some p ->
  seasonal_decompose p = Ok d ->
  text ∈ ["- The time series has a trend component.";
          "- No significant trend detected.";
          "- The time series has a seasonal component.";
          "- No significant seasonality detected.";
          "- The time series has irregular components.";
          "- No significant irregularity detected."] ->
  Write text ∈ page (analysis df) <->
  Write text ∈ [trend_line d; seasonality_line d; irregularity_line d].
Proof.
  intros Hp Hd Ht. rewrite (analysis_writes _ _ _ _ Hp Hd).
  rewrite (elem_of_cons _ (Write text) (Write "Analysis of the time series:")).
  split; [|tauto].
  intros [[Heq|H]|H]; [|done|].
  - injection Heq as ->. wrong_text Ht.
  - apply series_analysis_lines in H as [H|[H|(r & H)]].
    + apply stationarity_step_shows in H as [[= ->]|[= ->]]; wrong_text Ht.
    + rewrite !elem_of_cons, elem_of_nil in H.
      destruct H as [->|[->|[]]]; wrong_text Ht.
    + unfold volatility_line in H. injection H as ->. wrong_text Ht.
Qed.

(** The page says that the series has a seasonal component exactly when the
    mean of the seasonal cells that are present differs from zero under
    [!=], and that no seasonality was detected otherwise. *)
Theorem seasonality_verdict df p d :
  getitem df "Passengers" = Some p ->
  seasonal_decompose p = Ok d ->
  (Write "- The time series has a seasonal component." ∈ page (analysis df)
   <-> F64.neqb (mean (dropna (seasonal d))) F64.zero = true) /\
  (Write "- No significant seasonality detected." ∈ page (analysis df)
   <-> F64.neqb (mean (dropna (seasonal d))) F64.zero = false).
Proof.
  intros Hp Hd.
  rewrite !(component_text_shown _ _ _ _ Hp Hd)
    by (rewrite !elem_of_cons; auto 10).
  unfold trend_line, seasonality_line, irregularity_line.
  rewrite !elem_of_cons, !elem_of_nil.
  destruct (F64.neqb (mean (dropna (trend d))) _),
    (F64.neqb (mean (dropna (seasonal d))) _), (F64.gtb _ _);
    split; split; intuition discriminate.
Qed.

(** The page says that the series has irregular components exactly when
    the standard deviation of the residual cells that are present exceeds
    10 under [>], and that no irregularity was detected otherwise; the
    latter is what is shown when that standard deviation is not a number. *)
Theorem irregularity_verdict df p d :
  getitem df "Passengers" = Some p ->
  seasonal_decompose p = Ok d ->
  (Write "- The time series has irregular components." ∈ page (analysis df)
   <-> F64.gtb (std (dropna (resid d))) F64.ten = true) /\
  (Write "- No significant irregularity detected." ∈ page (analysis df)
   <-> F64.gtb (std (dropna (resid d))) F64.ten = false) /\
  (F64.isnan (std (dropna (resid d))) = true ->
   Write "- No significant irregularity detected." ∈ page (analysis df)).
Proof.
  intros Hp Hd.
  rewrite !(component_text_shown _ _ _ _ Hp Hd)
    by (rewrite !elem_of_cons; auto 10).
  unfold trend_line, seasonality_line, irregularity_line.
  rewrite !elem_of_cons, !elem_of_nil.
  destruct (std (dropna (resid d))) as [s|s| |s m x] eqn:Hstd;
    destruct (F64.neqb (mean (dropna (trend d))) _),
      (F64.neqb (mean (dropna (seasonal d))) _),
      (F64.gtb _ F64.ten) eqn:Hgt;
    try discriminate Hgt;
    (split; [|split]); (try split); cbn; intuition discriminate.
Qed.

(** *** Runs that go through *)

(** The series diagnostics, once the three library calls have returned:
    three items, then whatever the volatility step does. *)
Lemma series_analysis_run df p result acf_values pacf_values :
  getitem df "Passengers" = Some p ->
  adfuller (dropna p) = Ok result ->
  acf (dropna p) (lags (len df)) = Ok acf_values ->
  pacf (dropna p) (lags (len df)) = Ok pacf_values ->
  series_analysis df =
    mkRun (outcome (volatility_step df)) (frame (volatility_step df))
      ([stationarity_line result;
        Pyplot (Correlogram acf_values pacf_values);
        mean_reversion_line p] ++ page (volatility_step df)).
Proof.
  intros Hp Hr Ha Hpa. unfold series_analysis.
  pose proof (stationarity_step_ok _ _ _ Hp Hr) as H1.
  pose proof (correlation_step_ok _ _ _ _ Hp Ha Hpa) as H2.
  pose proof (mean_reversion_step_ok _ _ Hp) as H3.
  rewrite (bind_ok _ _ df tt) by now rewrite H1.
  rewrite H1. cbn [outcome frame page].
  rewrite (bind_ok _ _ df tt) by now rewrite H2.
  rewrite H2. cbn [outcome frame page].
  rewrite (bind_ok _ _ df tt) by now rewrite H3.
  rewrite H3. cbn [outcome frame page]. reflexivity.
Qed.

(** The page says that the series exhibits mean reversion exactly when
    the standard deviation of the 12-row rolling mean, missing cells
    dropped, exceeds 10 under [>], and that none was detected otherwise. *)
Theorem mean_reversion_verdict df p d result acf_values pacf_values :
  getitem df "Passengers" = Some p ->
  seasonal_decompose p = Ok d ->
  adfuller (dropna p) = Ok result ->
  acf (dropna p) (Z.min (len df - 1) 40) = Ok acf_values ->
  pacf (dropna p) (Z.min (len df - 1) 40) = Ok pacf_values ->
  (Write "- The time series exhibits mean reversion." ∈ page (analysis df)
   <-> F64.gtb (std (dropna (rolling_mean 12 p))) F64.ten = true) /\
  (Write "- No significant mean reversion detected." ∈ page (analysis df)
   <-> F64.gtb (std (dropna (rolling_mean 12 p))) F64.ten = false).
Proof.
  intros Hp Hd Hr Ha Hpa. rewrite !(analysis_writes _ _ _ _ Hp Hd).
  rewrite (series_analysis_run _ _ _ _ _ Hp Hr Ha Hpa). cbn [page].
  unfold stationarity_line, mean_reversion_line.
  split; split.
  - intros [H|H]; [apply component_lines in H; wrong_text H|].
    rewrite elem_of_app in H. destruct H as [H|H].
    + rewrite !elem_of_cons, elem_of_nil in H.
      destruct (F64.ltb _ _), (F64.gtb _ _); intuition discriminate.
    + apply volatility_step_shows in H as (r & H). wrong_text H.
  - intros H. right. rewrite H, elem_of_app, !elem_of_cons. auto.
  - intros [H|H]; [apply component_lines in H; wrong_text H|].
    rewrite elem_of_app in H. destruct H as [H|H].
    + rewrite !elem_of_cons, elem_of_nil in H.
      destruct (F64.ltb _ _), (F64.gtb _ _); intuition discriminate.
    + apply volatility_step_shows in H as (r & H). wrong_text H.
  - intros H. right. rewrite H, elem_of_app, !elem_of_cons. auto.
Qed.

(** A run in which every library call returns, on a table with one cell
    per row and distinct labels: the page is the heading, the figure of
    the decomposition, the line that opens the verdicts, the three
    verdicts on the components, the stationarity verdict, the correlogram,
    the mean-reversion verdict and the volatility, in this order and
    nothing else; the table has gained the column [Returns]. *)
Theorem complete_run df p d result acf_values pacf_values :
  well_formed df -> NoDup (index df) ->
  getitem df "Passengers" = Some p ->
  seasonal_decompose p = Ok d ->
  adfuller (dropna p) = Ok result ->
  acf (dropna p) (Z.min (len df - 1) 40) = Ok acf_values ->
  pacf (dropna p) (Z.min (len df - 1) 40) = Ok pacf_values ->
  analysis df =
    mkRun (Ok tt)
      {| index := index df;
         columns := <["Returns" := values (pct_change pct_change_pads p)]>
                      (columns df) |}
      [Subheader "Time Series Decomposition";
       Pyplot (DecompositionPlot d);
       Write "Analysis of the time series:";
       trend_line d; seasonality_line d; irregularity_line d;
       stationarity_line result;
       Pyplot (Correlogram acf_values pacf_values);
       mean_reversion_line p;
       volatility_line (pct_change pct_change_pads p)].
Proof.
  intros Hwf Hnd Hp Hd Hr Ha Hpa.
  pose proof (decomposition_step_ok _ _ _ Hp Hd) as Hstep.
  assert (outcome (decomposition_step df) = Ok d) as Ho by now rewrite Hstep.
  rewrite analysis_run, (diagnostics_ok _ _ Ho), Hstep.
  rewrite (series_analysis_run _ _ _ _ _ Hp Hr Ha Hpa).
  rewrite (volatility_step_run _ _ Hwf Hnd Hp). reflexivity.
Qed.

(** *** Runs that stop *)

Lemma stationarity_step_raise df p x :
  getitem df "Passengers" = Some p ->
  adfuller (dropna p) = Raise x ->
  stationarity_step df = mkRun (Raise x) df [].
Proof.
  intros Hp Hr. unfold stationarity_step, bind, call.
  rewrite (col_ok _ _ _ Hp). cbn. now rewrite Hr.
Qed.

Lemma correlation_step_pacf_raise df p acf_values x :
  getitem df "Passengers" = Some p ->
  acf (dropna p) (lags (len df)) = Ok acf_values ->
  pacf (dropna p) (lags (len df)) = Raise x ->
  correlation_step df = mkRun (Raise x) df [].
Proof.
  intros Hp Ha Hpa. unfold correlation_step, bind, call, rows. cbn.
  rewrite (col_ok _ _ _ Hp). cbn. rewrite Ha. cbn.
  rewrite (col_ok _ _ _ Hp). cbn. now rewrite Hpa.
Qed.

(** When the ADF test raises after the decomposition went through, the
    figure of the decomposition and the three verdicts on the components
    stay on the page, the text of the exception follows them, none of the
    later diagnostics is shown and the table is as it was. *)
Theorem adfuller_failure_keeps_components df p d x :
  getitem df "Passengers" = Some p ->
  seasonal_decompose p = Ok d ->
  adfuller (dropna p) = Raise x ->
  analysis df =
    mkRun (Ok tt) df
      [Subheader "Time Series Decomposition";
       Pyplot (DecompositionPlot d);
       Write "Analysis of the time series:";
       trend_line d; seasonality_line d; irregularity_line d;
       Error ("Error during analysis: " +:+ x)].
Proof.
  intros Hp Hd Hr.
  pose proof (decomposition_step_ok _ _ _ Hp Hd) as Hstep.
  assert (outcome (decomposition_step df) = Ok d) as Ho by now rewrite Hstep.
  pose proof (stationarity_step_raise _ _ _ Hp Hr) as Hs.
  assert (series_analysis df = mkRun (Raise x) df []) as Hsa.
  { unfold series_analysis. rewrite (bind_raise _ _ df x) by now rewrite Hs.
    now rewrite Hs. }
  rewrite analysis_run, (diagnostics_ok _ _ Ho), Hstep, Hsa. reflexivity.
Qed.

(** When [pacf] raises, no correlogram is shown although [acf] had
    returned: the page ends with the stationarity verdict and the text of
    the exception, and the table is as it was. *)
Theorem pacf_failure_shows_no_correlogram df p d result acf_values x :
  getitem df "Passengers" = Some p ->
  seasonal_decompose p = Ok d ->
  adfuller (dropna p) = Ok result ->
  acf (dropna p) (Z.min (len df - 1) 40) = Ok acf_values ->
  pacf (dropna p) (Z.min (len df - 1) 40) = Raise x ->
  analysis df =
    mkRun (Ok tt) df
      [Subheader "Time Series Decomposition";
       Pyplot (DecompositionPlot d);
       Write "Analysis of the time series:";
       trend_line d; seasonality_line d; irregularity_line d;
       stationarity_line result;
       Error ("Error during analysis: " +:+ x)].
Proof.
  intros Hp Hd Hr Ha Hpa.
  pose proof (decomposition_step_ok _ _ _ Hp Hd) as Hstep.
  assert (outcome (decomposition_step df) = Ok d) as Ho by now rewrite Hstep.
  pose proof (stationarity_step_ok _ _ _ Hp Hr) as H1.
  pose proof (correlation_step_pacf_raise _ _ _ _ Hp Ha Hpa) as H2.
  assert (series_analysis df = mkRun (Raise x) df [stationarity_line result])
    as Hsa.
  { unfold series_analysis. rewrite (bind_ok _ _ df tt) by now rewrite H1.
    rewrite H1. cbn [outcome frame page].
    rewrite (bind_raise _ _ df x) by now rewrite H2.
    now rewrite H2. }
  rewrite analysis_run, (diagnostics_ok _ _ Ho), Hstep, Hsa. reflexivity.
Qed.

(** *** What is reported, and when *)

Lemma diagnostics_kinds_of_lines d e :
  e ∈ [Write "Analysis of the time series:";
       trend_line d; seasonality_line d; irregularity_line d] ->
  exists text, e = Write text.
Proof.
  unfold trend_line, seasonality_line, irregularity_line.
  rewrite !elem_of_cons, elem_of_nil. intuition eauto.
Qed.

(** The diagnostics themselves show figures and lines of text only. *)
Lemma diagnostics_kinds df e :
  e ∈ page (diagnostics df) ->
  (exists f, e = Pyplot f) \/ (exists text, e = Write text).
Proof.
  intros H.
  assert (e ∈ page (decomposition_step df) \/
          (exists text, e = Write text) \/
          e ∈ page (series_analysis df)) as [H'|[H'|H']].
  { destruct (outcome (decomposition_step df)) as [d|x] eqn:Hd.
    - rewrite (diagnostics_shows _ _ _ Hd) in H.
      destruct H as [H|[H|H]]; [tauto| |tauto].
      right; left. now apply diagnostics_kinds_of_lines in H.
    - rewrite (diagnostics_raise _ _ Hd) in H. tauto. }
  - apply decomposition_step_shows in H' as (? & ? & _ & _ & ->). eauto.
  - tauto.
  - apply series_analysis_shows in H' as [H'|[H'|[H'|H']]].
    + apply stationarity_step_shows in H' as [->| ->]; eauto.
    + apply correlation_step_shows in H' as (? & ? & ? & _ & _ & _ & ->).
      eauto.
    + apply mean_reversion_step_shows in H' as [->| ->]; eauto.
    + apply volatility_step_shows in H' as (r & ->).
      unfold volatility_line. eauto.
Qed.

(** The only figure of two sequences the analysis shows is the one of the
    correlation step. *)
Lemma correlogram_of_page df acf_values pacf_values :
  Pyplot (Correlogram acf_values pacf_values) ∈ page (analysis df) ->
  Pyplot (Correlogram acf_values pacf_values) ∈ page (correlation_step df).
Proof.
  intros [H|[H|(x & _ & H)]]%analysis_shows; try discriminate.
  assert (Pyplot (Correlogram acf_values pacf_values)
            ∈ page (decomposition_step df) \/
          Pyplot (Correlogram acf_values pacf_values)
            ∈ page (series_analysis df)) as [H'|H'].
  { destruct (outcome (decomposition_step df)) as [d|x] eqn:Hd.
    - rewrite (diagnostics_shows _ _ _ Hd) in H.
      destruct H as [H|[H|H]]; [tauto| |tauto].
      apply diagnostics_kinds_of_lines in H as (? & H). discriminate.
    - rewrite (diagnostics_raise _ _ Hd) in H. tauto. }
  - apply decomposition_step_shows in H' as (? & ? & _ & _ & H').
    discriminate.
  - apply series_analysis_shows in H' as [H'|[H'|[H'|H']]]; [|done| |].
    + apply stationarity_step_shows in H'. intuition discriminate.
    + apply mean_reversion_step_shows in H'. intuition discriminate.
    + apply volatility_step_shows in H' as (r & H'). discriminate.
Qed.

(** The volatility is on the page of the series diagnostics only if they
    ran to the end. *)
Lemma series_analysis_volatility df returns :
  volatility_line returns ∈ page (series_analysis df) ->
  outcome (series_analysis df) = Ok tt.
Proof.
  unfold series_analysis. intros H.
  apply elem_of_page_bind in H as [H|([] & H1 & H)].
  { apply stationarity_step_shows in H. wrong_text H. }
  apply outcome_bind_ok. exists tt. split; [done|].
  apply elem_of_page_bind in H as [H|([] & H2 & H)].
  { apply correlation_step_shows in H as (? & ? & ? & _ & _ & _ & H).
    discriminate. }
  apply outcome_bind_ok. exists tt. split; [done|].
  apply elem_of_page_bind in H as [H|([] & H3 & H)].
  { apply mean_reversion_step_shows in H. wrong_text H. }
  apply outcome_bind_ok. exists tt. split; [done|].
  destruct (volatility_step_cases (frame
    (mean_reversion_step (frame (correlation_step
      (frame (stationarity_step df)))))))
    as [(x & Hv)|(? & ? & ? & _ & _ & _ & Hv)]; rewrite Hv in H |- *.
  - now apply elem_of_nil in H.
  - reflexivity.
Qed.

Lemma series_analysis_complete df :
  outcome (series_analysis df) = Ok tt ->
  exists returns, volatility_line returns ∈ page (series_analysis df).
Proof.
  unfold series_analysis. intros H.
  apply outcome_bind_ok in H as ([] & H1 & H).
  apply outcome_bind_ok in H as ([] & H2 & H).
  apply outcome_bind_ok in H as ([] & H3 & H).
  destruct (volatility_step_cases (frame
    (mean_reversion_step (frame (correlation_step
      (frame (stationarity_step df)))))))
    as [(x & Hv)|(? & ? & r & _ & _ & _ & Hv)]; rewrite Hv in H;
    [discriminate|].
  exists r.
  apply elem_of_page_bind. right. exists tt. split; [done|].
  apply elem_of_page_bind. right. exists tt. split; [done|].
  apply elem_of_page_bind. right. exists tt. split; [done|].
  rewrite Hv. now apply list_elem_of_singleton.
Qed.

(** An error is on the page exactly when a step raised. *)
Lemma error_shown df s :
  Error s ∈ page (analysis df) <->
  exists x, outcome (diagnostics df) = Raise x /\
            s = "Error during analysis: " +:+ x.
Proof.
  rewrite analysis_shows. split.
  - intros [H|[H|(x & Hx & H)]]; [discriminate| |].
    + apply diagnostics_kinds in H as [(? & H)|(? & H)]; discriminate.
    + injection H as ->. eauto.
  - intros (x & Hx & ->). right; right. eauto.
Qed.

(** The volatility is on the page exactly when no step raised. *)
Lemma volatility_shown df :
  (exists returns, volatility_line returns ∈ page (analysis df)) <->
  outcome (diagnostics df) = Ok tt.
Proof.
  split.
  - intros (r & H). apply analysis_shows in H as [H|[H|(x & _ & H)]];
      [discriminate| |discriminate].
    destruct (outcome (decomposition_step df)) as [d|x] eqn:Hd.
    + rewrite (diagnostics_shows _ _ _ Hd) in H.
      rewrite (diagnostics_ok _ _ Hd). cbn [outcome].
      destruct H as [H|[H|H]].
      * apply decomposition_step_shows in H as (? & ? & _ & _ & H).
        discriminate.
      * apply component_lines in H. wrong_text H.
      * now apply series_analysis_volatility in H.
    + rewrite (diagnostics_raise _ _ Hd) in H.
      apply decomposition_step_shows in H as (? & ? & _ & _ & H).
      discriminate.
  - intros Hrun.
    destruct (outcome (decomposition_step df)) as [d|x] eqn:Hd;
      [|now rewrite (diagnostics_raise _ _ Hd) in Hrun].
    rewrite (diagnostics_ok _ _ Hd) in Hrun. cbn [outcome] in Hrun.
    destruct (series_analysis_complete _ Hrun) as (r & Hr).
    exists r. apply analysis_shows. right; left.
    apply (diagnostics_shows _ _ _ Hd). auto.
Qed.

(** Every run of the analysis ends in exactly one of two ways.  An error
    is on the page exactly when a step raised, and it carries the text of
    that exception; the volatility is on the page exactly when no step
    raised. *)
Theorem error_or_volatility df :
  (forall s, Error s ∈ page (analysis df) <->
             exists x, outcome (diagnostics df) = Raise x /\
                       s = "Error during analysis: " +:+ x) /\
  ((exists returns, volatility_line returns ∈ page (analysis df)) <->
   outcome (diagnostics df) = Ok tt) /\
  ((exists s, Error s ∈ page (analysis df)) <->
   ~ exists returns, volatility_line returns ∈ page (analysis df)).
Proof.
  split; [apply error_shown|]. split; [apply volatility_shown|].
  rewrite volatility_shown. split.
  - intros (s & (x & Hx & _)%error_shown). congruence.
  - intros Hn. destruct (outcome (diagnostics df)) as [[]|x] eqn:Ho;
      [done|].
    exists ("Error during analysis: " +:+ x). apply error_shown. eauto.
Qed.

(** A run that reports an error hands the table back as it was: the
    column [Returns] is assigned by the last step only, and only when that
    step does not fail. *)
Theorem reported_error_leaves_table df s :
  Error s ∈ page (analysis df) -> frame (analysis df) = df.
Proof.
  intros (x & Hx & _)%error_shown. exact (analysis_failure_frame _ _ Hx).
Qed.

(** *** The page around the analysis *)

(** Once a file has been read the script cannot stop on an exception:
    the column is looked up only behind the check of line 24, and whatever
    the diagnostics raise is caught by the handler. *)
Theorem loaded_never_raises pressed df :
  outcome (loaded pressed df) = Ok tt.
Proof.
  destruct (columns df !! "Passengers") as [v|] eqn:Hv.
  - assert (getitem df "Passengers" = Some (combine (index df) v)) as Hp
      by (unfold getitem; now rewrite Hv).
    now rewrite (loaded_with_passengers _ _ _ Hp).
  - now rewrite (loaded_without_passengers _ _ Hv).
Qed.

(** The analysis is run exactly on the tables that have a [Passengers]
    column; the others get the message of line 25 instead, and are left as
    they were. *)
Theorem analysis_requires_passengers pressed df :
  (Subheader "Time Series Decomposition" ∈ page (loaded pressed df)
   <-> is_Some (columns df !! "Passengers")) /\
  (Error "CSV file must contain a 'Passengers' column."
     ∈ page (loaded pressed df)
   <-> columns df !! "Passengers" = None) /\
  (columns df !! "Passengers" = None -> frame (loaded pressed df) = df).
Proof.
  destruct (columns df !! "Passengers") as [v|] eqn:Hv.
  - assert (getitem df "Passengers" = Some (combine (index df) v)) as Hp
      by (unfold getitem; now rewrite Hv).
    rewrite (loaded_with_passengers _ _ _ Hp). cbn [page].
    rewrite about_run. cbn [page]. rewrite !elem_of_app.
    split; [|split]; [| |discriminate].
    + split; [eauto|]. intros _. right; left.
      apply analysis_shows. now left.
    + split; [|discriminate].
      intros [H|[H|H]]; exfalso.
      * revert H. rewrite !elem_of_cons, elem_of_nil. intuition discriminate.
      * apply analysis_shows in H as [H|[H|(x & _ & H)]];
          [discriminate| |discriminate].
        apply diagnostics_kinds in H as [(? & H)|(? & H)]; discriminate.
      * destruct pressed; revert H; rewrite !elem_of_cons, elem_of_nil;
          intuition discriminate.
  - rewrite (loaded_without_passengers _ _ Hv). cbn [page frame].
    rewrite about_run. cbn [page].
    split; [|split]; [| |done].
    + split; [|intros [? [=]]].
      destruct pressed; rewrite !elem_of_cons, elem_of_nil;
        intuition discriminate.
    + split; [done|]. intros _. apply list_elem_of_here.
Qed.

End Further.

(** *** The table stays rectangular *)

Lemma setitem_well_formed df c s df' :
  well_formed df -> setitem df c s = Ok df' -> well_formed df'.
Proof.
  intros Hwf. unfold setitem. destruct (decide _) as [Heq|_].
  - intros [= <-]. apply map_Forall_insert_2; [|exact Hwf]. cbn.
    now rewrite <- Heq, length_labels, length_values.
  - unfold reindex. destruct (decide _); [|discriminate].
    intros [= <-]. apply map_Forall_insert_2; [|exact Hwf]. cbn.
    apply length_map.
Qed.

(** Whatever happens, a table with one cell per row is handed back with
    one cell per row: the column the analysis assigns is as long as the
    index. *)
Theorem analysis_keeps_well_formed {lib : Library} df :
  well_formed df -> well_formed (frame (analysis df)).
Proof.
  intros Hwf. rewrite analysis_run. cbn [frame].
  destruct (outcome (decomposition_step df)) as [d|x] eqn:Hd.
  - rewrite (diagnostics_ok _ _ Hd). cbn [frame].
    destruct (series_analysis_cases df)
      as [(x & _ & ->)|(p & df' & _ & Hs & _ & ->)]; [done|].
    exact (setitem_well_formed _ _ _ _ Hwf Hs).
  - now rewrite (diagnostics_raise _ _ Hd).
Qed.

(** *** The lags on a table without gaps *)

(** On a table in which no [Passengers] cell is missing, every correlogram
    shown was computed with a number of lags that is at most 40 and
    strictly below the length of the series handed to [acf] and [pacf];
    it is not negative unless the table is empty. *)
Theorem lags_below_length_without_gaps {lib : Library} df p
    acf_values pacf_values :
  well_formed df ->
  getitem df "Passengers" = Some p ->
  missing p = 0%nat ->
  Pyplot (Correlogram acf_values pacf_values) ∈ page (analysis df) ->
  exists nlags,
    acf (dropna p) nlags = Ok acf_values /\
    pacf (dropna p) nlags = Ok pacf_values /\
    nlags < Z.of_nat (length (dropna p)) /\
    nlags <= 40 /\
    (p <> [] -> 0 <= nlags).
Proof.
  intros Hwf Hp Hm Hshown.
  apply correlogram_of_page, correlation_step_shows in Hshown
    as (p' & a & pa & Hp' & Ha & Hpa & [= -> ->]).
  assert (p' = p) as -> by congruence.
  exists (lags (len df)). split; [done|]. split; [done|]. unfold lags.
  destruct (getitem_well_formed _ _ _ Hwf Hp) as [_ Hlen].
  rewrite (dropna_all _ Hm). unfold len. rewrite <- Hlen.
  repeat split; try lia.
  intros Hne. destruct p; [done|]. cbn [length]. lia.
Qed.

(** *** Columns the analysis does not read *)

Section Insensitive.

Context {lib : Library}.

Lemma same_series_refl df : same_series df df.
Proof. now split. Qed.

Lemma same_series_getitem df1 df2 :
  same_series df1 df2 ->
  getitem df1 "Passengers" = getitem df2 "Passengers".
Proof. intros [Hi Hc]. unfold getitem. now rewrite Hi, Hc. Qed.

Lemma insensitive_ret {A} (a : A) : insensitive (ret a).
Proof. intros df1 df2 H. split; [done|]. split; [done|exact H]. Qed.

Lemma insensitive_emit e : insensitive (emit e).
Proof. intros df1 df2 H. split; [done|]. split; [done|exact H]. Qed.

Lemma insensitive_call {A} (r : Result A) : insensitive (call r).
Proof. intros df1 df2 H. split; [done|]. split; [done|exact H]. Qed.

Lemma insensitive_rows : insensitive rows.
Proof.
  intros df1 df2 H. unfold rows, len. cbn.
  split; [now destruct H as [-> _]|]. split; [done|exact H].
Qed.

Lemma insensitive_passengers : insensitive (col "Passengers").
Proof.
  intros df1 df2 H. unfold col.
  rewrite (same_series_getitem _ _ H).
  destruct (getitem df2 "Passengers"); (split; [done|]; split; [done|exact H]).
Qed.

Lemma insensitive_bind {A B} (m : M A) (k : A -> M B) :
  insensitive m -> (forall a, insensitive (k a)) -> insensitive (bind m k).
Proof.
  intros Hm Hk df1 df2 H. unfold bind.
  destruct (Hm df1 df2 H) as (Ho & Hpg & Hf). rewrite <- Ho, Hpg.
  destruct (outcome (m df1)) as [a|x]; cbn.
  - destruct (Hk a _ _ Hf) as (Ho' & Hpg' & Hf').
    now rewrite Ho', Hpg'.
  - split; [done|]. split; [done|exact Hf].
Qed.

Lemma insensitive_if {A} (c : bool) (m1 m2 : M A) :
  insensitive m1 -> insensitive m2 -> insensitive (if c then m1 else m2).
Proof. now destruct c. Qed.

Lemma insensitive_try body handler :
  insensitive body -> (forall x, insensitive (handler x)) ->
  insensitive (try_except body handler).
Proof.
  intros Hb Hh df1 df2 H. unfold try_except.
  destruct (Hb df1 df2 H) as (Ho & Hpg & Hf). rewrite <- Ho.
  destruct (outcome (body df1)) as [a|x] eqn:Ho1; cbn.
  - split; [congruence|]. split; [done|exact Hf].
  - destruct (Hh x _ _ Hf) as (Ho' & Hpg' & Hf').
    now rewrite Ho', Hpg, Hpg'.
Qed.

(** Assigning a column in two tables with the same rows fails in both or
    assigns the same cells in both. *)
Lemma setitem_same_index df1 df2 c s :
  index df1 = index df2 ->
  (exists x, setitem df1 c s = Raise x /\ setitem df2 c s = Raise x) \/
  (exists v,
      setitem df1 c s =
        Ok {| index := index df1; columns := <[c := v]> (columns df1) |} /\
      setitem df2 c s =
        Ok {| index := index df2; columns := <[c := v]> (columns df2) |}).
Proof.
  intros Hi. unfold setitem. rewrite <- Hi.
  destruct (decide _); [right; eauto|].
  destruct (reindex s (index df1)) as [v|x]; [right|left]; eauto.
Qed.

Lemma insensitive_volatility_step : insensitive volatility_step.
Proof.
  intros df1 df2 H. pose proof (same_series_getitem _ _ H) as Hg.
  destruct H as [Hi Hc].
  destruct (getitem df2 "Passengers") as [p|] eqn:Hp2.
  - destruct (setitem_same_index df1 df2 "Returns"
                (dropna (pct_change pct_change_pads p)) Hi)
      as [(x & H1 & H2)|(v & H1 & H2)].
    + rewrite (volatility_step_raise _ _ _ Hg H1),
        (volatility_step_raise _ _ _ Hp2 H2).
      split; [done|]. split; [done|]. now split.
    + destruct (volatility_step_ok _ _ _ Hg H1) as (r1 & Hr1 & ->).
      destruct (volatility_step_ok _ _ _ Hp2 H2) as (r2 & Hr2 & ->).
      unfold getitem in Hr1, Hr2. cbn in Hr1, Hr2.
      rewrite lookup_insert_eq in Hr1, Hr2.
      injection Hr1 as <-. injection Hr2 as <-. rewrite Hi.
      split; [done|]. split; [done|]. split; cbn; [done|].
      now rewrite !lookup_insert_ne.
  - unfold volatility_step, bind, col. rewrite Hg, Hp2. cbn.
    split; [done|]. split; [done|]. now split.
Qed.

Create HintDb insensitive discriminated.

#[local] Hint Resolve insensitive_ret insensitive_emit insensitive_call
  insensitive_rows insensitive_passengers insensitive_bind insensitive_if
  insensitive_try insensitive_volatility_step : insensitive.

Lemma insensitive_analysis : insensitive analysis.
Proof.
  unfold analysis, report, diagnostics, component_analysis, series_analysis,
    decomposition_step, trend_step, seasonality_step, irregularity_step,
    stationarity_step, correlation_step, mean_reversion_step.
  eauto 30 with insensitive.
Qed.

Lemma insensitive_diagnostics : insensitive diagnostics.
Proof.
  unfold diagnostics, component_analysis, series_analysis,
    decomposition_step, trend_step, seasonality_step, irregularity_step,
    stationarity_step, correlation_step, mean_reversion_step.
  eauto 30 with insensitive.
Qed.

(** The table a complete run hands back. *)
Lemma frame_of_complete_run df :
  outcome (diagnostics df) = Ok tt ->
  exists p df',
    getitem df "Passengers" = Some p /\
    setitem df "Returns" (dropna (pct_change pct_change_pads p)) = Ok df' /\
    frame (analysis df) = df'.
Proof.
  intros Hrun. rewrite analysis_run. cbn [frame].
  destruct (outcome (decomposition_step df)) as [d|x] eqn:Hd;
    [|now rewrite (diagnostics_raise _ _ Hd) in Hrun].
  rewrite (diagnostics_ok _ _ Hd) in Hrun |- *. cbn in Hrun |- *.
  destruct (series_analysis_cases df)
    as [(x & Hx & _)|(p & df' & Hp & Hs & _ & ->)]; [congruence|].
  eauto.
Qed.

(** Two tables with the same rows and the same [Passengers] column get
    the same page and stop or complete together, whatever their other
    columns hold; when the run completes, the column [Returns] they are
    handed back with is the same. *)
Theorem analysis_ignores_other_columns df1 df2 :
  same_series df1 df2 ->
  page (analysis df1) = page (analysis df2) /\
  outcome (diagnostics df1) = outcome (diagnostics df2) /\
  (outcome (diagnostics df1) = Ok tt ->
   columns (frame (analysis df1)) !! "Returns"
   = columns (frame (analysis df2)) !! "Returns").
Proof.
  intros H. destruct (insensitive_analysis _ _ H) as (_ & Hpg & _).
  destruct (insensitive_diagnostics _ _ H) as (Ho & _).
  split; [exact Hpg|]. split; [exact Ho|].
  intros Hrun1. assert (outcome (diagnostics df2) = Ok tt) as Hrun2
    by congruence.
  destruct (frame_of_complete_run _ Hrun1) as (p1 & df1' & Hp1 & Hs1 & ->).
  destruct (frame_of_complete_run _ Hrun2) as (p2 & df2' & Hp2 & Hs2 & ->).
  rewrite (same_series_getitem _ _ H), Hp2 in Hp1. injection Hp1 as <-.
  destruct (setitem_same_index df1 df2 "Returns"
              (dropna (pct_change pct_change_pads p2)) (proj1 H))
    as [(x & H1 & _)|(v & H1 & H2)]; [congruence|].
  rewrite H1 in Hs1. rewrite H2 in Hs2.
  injection Hs1 as <-. injection Hs2 as <-. cbn.
  now rewrite !lookup_insert_eq.
Qed.

End Insensitive.

(** *** The further properties on the sample tables *)

Lemma seasonality_verdict_witness :
  let lib := Sample.library in
  let p := Sample.cells 84 Sample.rising_cell in
  let d := Sample.trivial p in
  (Write "- The time series has a seasonal component."
     ∈ page (analysis Sample.rising)
   <-> F64.neqb (mean (dropna (seasonal d))) F64.zero = true) /\
  (Write "- No significant seasonality detected."
     ∈ page (analysis Sample.rising)
   <-> F64.neqb (mean (dropna (seasonal d))) F64.zero = false).
Proof.
  intros lib p d.
  assert (getitem Sample.rising "Passengers" = Some p) as Hp
    by reflexivity.
  assert (seasonal_decompose p = Ok d) as Hd by (vm_compute; reflexivity).
  exact (seasonality_verdict Sample.rising p d Hp Hd).
Defined.

Lemma irregularity_verdict_witness :
  let lib := Sample.library in
  let p := Sample.cells 84 Sample.rising_cell in
  let d := Sample.trivial p in
  (Write "- The time series has irregular components."
     ∈ page (analysis Sample.rising)
   <-> F64.gtb (std (dropna (resid d))) F64.ten = true) /\
  (Write "- No significant irregularity detected."
     ∈ page (analysis Sample.rising)
   <-> F64.gtb (std (dropna (resid d))) F64.ten = false) /\
  (F64.isnan (std (dropna (resid d))) = true ->
   Write "- No significant irregularity detected."
     ∈ page (analysis Sample.rising)).
Proof.
  intros lib p d.
  assert (getitem Sample.rising "Passengers" = Some p) as Hp
    by reflexivity.
  assert (seasonal_decompose p = Ok d) as Hd by (vm_compute; reflexivity).
  exact (irregularity_verdict Sample.rising p d Hp Hd).
Defined.

Lemma mean_reversion_verdict_witness :
  let lib := Sample.library in
  let p := Sample.cells 84 Sample.rising_cell in
  (Write "- The time series exhibits mean reversion."
     ∈ page (analysis Sample.rising)
   <-> F64.gtb (std (dropna (rolling_mean 12 p))) F64.ten = true) /\
  (Write "- No significant mean reversion detected."
     ∈ page (analysis Sample.rising)
   <-> F64.gtb (std (dropna (rolling_mean 12 p))) F64.ten = false).
Proof.
  intros lib p.
  assert (getitem Sample.rising "Passengers" = Some p) as Hp
    by reflexivity.
  assert (seasonal_decompose p = Ok (Sample.trivial p)) as Hd
    by (vm_compute; reflexivity).
  assert (adfuller (dropna p) = Ok (Sample.unit_root (dropna p))) as Hr
    by (vm_compute; reflexivity).
  assert (acf (dropna p) (Z.min (len Sample.rising - 1) 40)
          = Ok (Sample.white 40)) as Ha by (vm_compute; reflexivity).
  assert (pacf (dropna p) (Z.min (len Sample.rising - 1) 40)
          = Ok (Sample.white 40)) as Hpa by (vm_compute; reflexivity).
  exact (mean_reversion_verdict Sample.rising p _ _ _ _ Hp Hd Hr Ha Hpa).
Defined.

Lemma complete_run_witness :
  let lib := Sample.library in
  let p := Sample.cells 84 Sample.rising_cell in
  let d := Sample.trivial p in
  analysis Sample.rising =
    mkRun (Ok tt)
      {| index := index Sample.rising;
         columns := <["Returns" := values (pct_change pct_change_pads p)]>
                      (columns Sample.rising) |}
      [Subheader "Time Series Decomposition";
       Pyplot (DecompositionPlot d);
       Write "Analysis of the time series:";
       trend_line d; seasonality_line d; irregularity_line d;
       stationarity_line (Sample.unit_root (dropna p));
       Pyplot (Correlogram (Sample.white 40) (Sample.white 40));
       mean_reversion_line p;
       volatility_line (pct_change pct_change_pads p)].
Proof.
  intros lib p d.
  assert (well_formed Sample.rising) as Hwf by by_evaluation.
  assert (NoDup (index Sample.rising)) as Hnd by by_evaluation.
  assert (getitem Sample.rising "Passengers" = Some p) as Hp
    by reflexivity.
  assert (seasonal_decompose p = Ok d) as Hd by (vm_compute; reflexivity).
  assert (adfuller (dropna p) = Ok (Sample.unit_root (dropna p))) as Hr
    by (vm_compute; reflexivity).
  assert (acf (dropna p) (Z.min (len Sample.rising - 1) 40)
          = Ok (Sample.white 40)) as Ha by (vm_compute; reflexivity).
  assert (pacf (dropna p) (Z.min (len Sample.rising - 1) 40)
          = Ok (Sample.white 40)) as Hpa by (vm_compute; reflexivity).
  exact (complete_run Sample.rising p d _ _ _ Hwf Hnd Hp Hd Hr Ha Hpa).
Defined.

Lemma adfuller_failure_keeps_components_witness :
  let lib := Sample.strict in
  let p := Sample.cells 84 Sample.flat_cell in
  let d := Sample.trivial p in
  analysis Sample.flat =
    mkRun (Ok tt) Sample.flat
      [Subheader "Time Series Decomposition";
       Pyplot (DecompositionPlot d);
       Write "Analysis of the time series:";
       trend_line d; seasonality_line d; irregularity_line d;
       Error ("Error during analysis: " +:+ "Invalid input, x is constant")].
Proof.
  intros lib p d.
  assert (getitem Sample.flat "Passengers" = Some p) as Hp by reflexivity.
  assert (seasonal_decompose p = Ok d) as Hd by (vm_compute; reflexivity).
  assert (adfuller (dropna p) = Raise "Invalid input, x is constant") as Hr
    by (vm_compute; reflexivity).
  exact (adfuller_failure_keeps_components Sample.flat p d _ Hp Hd Hr).
Defined.

Lemma pacf_failure_shows_no_correlogram_witness :
  let lib := Sample.library in
  let p := Sample.cells 30 Sample.rising_cell in
  let d := Sample.trivial p in
  analysis Sample.medium =
    mkRun (Ok tt) Sample.medium
      [Subheader "Time Series Decomposition";
       Pyplot (DecompositionPlot d);
       Write "Analysis of the time series:";
       trend_line d; seasonality_line d; irregularity_line d;
       stationarity_line (Sample.unit_root (dropna p));
       Error ("Error during analysis: " +:+
              "Can only compute partial correlations for lags up to 50% of the sample size.")].
Proof.
  intros lib p d.
  assert (getitem Sample.medium "Passengers" = Some p) as Hp by reflexivity.
  assert (seasonal_decompose p = Ok d) as Hd by (vm_compute; reflexivity).
  assert (adfuller (dropna p) = Ok (Sample.unit_root (dropna p))) as Hr
    by (vm_compute; reflexivity).
  assert (acf (dropna p) (Z.min (len Sample.medium - 1) 40)
          = Ok (Sample.white 29)) as Ha by (vm_compute; reflexivity).
  assert (pacf (dropna p) (Z.min (len Sample.medium - 1) 40)
          = Raise "Can only compute partial correlations for lags up to 50% of the sample size.")
    as Hpa by (vm_compute; reflexivity).
  exact (pacf_failure_shows_no_correlogram Sample.medium p d _ _ _
           Hp Hd Hr Ha Hpa).
Defined.

Lemma analysis_keeps_well_formed_witness :
  let lib := Sample.library in
  well_formed Sample.rising /\ well_formed (frame (analysis Sample.rising)).
Proof.
  intros lib.
  assert (well_formed Sample.rising) as Hwf by by_evaluation.
  split; [exact Hwf|].
  exact (analysis_keeps_well_formed Sample.rising Hwf).
Defined.

Lemma lags_below_length_without_gaps_witness :
  let lib := Sample.library in
  let p := Sample.cells 84 Sample.rising_cell in
  exists nlags,
    acf (dropna p) nlags = Ok (Sample.white 40) /\
    pacf (dropna p) nlags = Ok (Sample.white 40) /\
    nlags < Z.of_nat (length (dropna p)) /\
    nlags <= 40 /\
    (p <> [] -> 0 <= nlags).
Proof.
  intros lib p.
  assert (well_formed Sample.rising) as Hwf by by_evaluation.
  assert (getitem Sample.rising "Passengers" = Some p) as Hp
    by reflexivity.
  assert (missing p = 0%nat) as Hm by (vm_compute; reflexivity).
  assert (Pyplot (Correlogram (Sample.white 40) (Sample.white 40))
            ∈ page (analysis Sample.rising)) as Hshown by shown.
  exact (lags_below_length_without_gaps Sample.rising p _ _
           Hwf Hp Hm Hshown).
Defined.

Lemma analysis_ignores_other_columns_witness :
  let lib := Sample.library in
  same_series Sample.rising Sample.annotated /\
  page (analysis Sample.rising) = page (analysis Sample.annotated).
Proof.
  intros lib.
  assert (same_series Sample.rising Sample.annotated) as Hsame
    by (split; vm_compute; reflexivity).
  split; [exact Hsame|].
  exact (proj1 (analysis_ignores_other_columns
                  Sample.rising Sample.annotated Hsame)).
Defined.

Lemma reported_error_leaves_table_witness :
  let lib := Sample.library in
  Error "Error during analysis: x must have 2 complete cycles"
    ∈ page (analysis Sample.short) /\
  frame (analysis Sample.short) = Sample.short.
Proof.
  intros lib.
  assert (Error "Error during analysis: x must have 2 complete cycles"
            ∈ page (analysis Sample.short)) as Hshown by shown.
  split; [exact Hshown|].
  exact (reported_error_leaves_table Sample.short _ Hshown).
Defined.
